(** * The S3 proxy of python-otcextensions, embedded and verified

    Source: [otcextensions/sdk/s3/v1/_proxy.py], class [Proxy].

    The proxy builds a boto3 client for a region and forwards container
    and object operations to it.  The embedding follows the Python text:
    - Python values the proxy inspects are the inductive [pyval];
      dictionaries are finite maps ([gmap string pyval]);
    - a call either returns or raises: [outcome];
    - the effects of a call (error log, calls that reach the backend
      client, files opened and written) are threaded through a [World]
      by the state-and-exception monad [M];
    - the Python builtins the proxy relies on ([str % mapping],
      [os.path.basename], [urllib.parse.urlsplit]) are modelled in the
      modules [PyStr], [PyFormat] and [Url]. *)

From Stdlib Require Import Ascii String ZArith NArith Lia.
From stdpp Require Import gmap strings list.

(** ** Exceptions and outcomes *)

(** The exception classes that can leave a proxy method.  [LibraryError]
    stands for an exception raised inside a collaborator (boto3, the
    session), named by its class. *)
Inductive exn :=
| TypeError
| ValueError
| KeyError
| AttributeError
| UnboundLocalError
| OSError
| LibraryError (cls : string).

Definition exn_class (e : exn) : string :=
  match e with
  | TypeError => "TypeError"
  | ValueError => "ValueError"
  | KeyError => "KeyError"
  | AttributeError => "AttributeError"
  | UnboundLocalError => "UnboundLocalError"
  | OSError => "OSError"
  | LibraryError cls => cls
  end.

Inductive outcome (A : Type) :=
| Return (a : A)
| Raise (e : exn).
Arguments Return {A} a.
Arguments Raise {A} e.

Definition raised {A} (o : outcome A) : option exn :=
  match o with Return _ => None | Raise e => Some e end.

(** ** Python strings

    A [string] is read as a Python [str] whose code points are all
    below 256. *)
Module PyStr.

Definition code (c : ascii) : N := N_of_ascii c.

(** [c in s] *)
Fixpoint contains (c : ascii) (s : string) : bool :=
  match s with
  | EmptyString => false
  | String a rest => Ascii.eqb a c || contains c rest
  end.

(** [s.rfind(c)]: the highest index of [c] in [s], or -1. *)
Fixpoint rfind (c : ascii) (s : string) : Z :=
  match s with
  | EmptyString => (-1)%Z
  | String a rest =>
      let r := rfind c rest in
      if (0 <=? r)%Z then (r + 1)%Z
      else if Ascii.eqb a c then 0%Z else (-1)%Z
  end.

(** [s[i:]] for [0 <= i]. *)
Fixpoint from (i : nat) (s : string) : string :=
  match i, s with
  | O, _ => s
  | S _, EmptyString => EmptyString
  | S j, String _ rest => from j rest
  end.

(** [s[:n]] *)
Fixpoint take (n : nat) (s : string) : string :=
  match n, s with
  | O, _ => EmptyString
  | S _, EmptyString => EmptyString
  | S m, String a rest => String a (take m rest)
  end.

(** [s.partition(c)], when [c] occurs: the text before its first
    occurrence and the text after it. *)
Fixpoint partition (c : ascii) (s : string) : option (string * string) :=
  match s with
  | EmptyString => None
  | String a rest =>
      if Ascii.eqb a c then Some (EmptyString, rest)
      else match partition c rest with
           | Some (before, after) => Some (String a before, after)
           | None => None
           end
  end.

Fixpoint all (p : ascii -> bool) (s : string) : bool :=
  match s with
  | EmptyString => true
  | String a rest => p a && all p rest
  end.

Fixpoint filter (p : ascii -> bool) (s : string) : string :=
  match s with
  | EmptyString => EmptyString
  | String a rest => if p a then String a (filter p rest) else filter p rest
  end.

(** [s.lstrip(chars)] with the characters given as a predicate. *)
Fixpoint lstrip (p : ascii -> bool) (s : string) : string :=
  match s with
  | EmptyString => EmptyString
  | String a rest => if p a then lstrip p rest else s
  end.

Fixpoint map (f : ascii -> ascii) (s : string) : string :=
  match s with
  | EmptyString => EmptyString
  | String a rest => String (f a) (map f rest)
  end.

Fixpoint repeat (c : ascii) (n : nat) : string :=
  match n with
  | O => EmptyString
  | S m => String c (repeat c m)
  end.

Definition is_upper (c : ascii) : bool := (65 <=? code c)%N && (code c <=? 90)%N.
Definition is_lower (c : ascii) : bool := (97 <=? code c)%N && (code c <=? 122)%N.
Definition is_digit (c : ascii) : bool := (48 <=? code c)%N && (code c <=? 57)%N.
Definition is_ascii (c : ascii) : bool := (code c <? 128)%N.

(** [c.lower()] on an ASCII character. *)
Definition lower (c : ascii) : ascii :=
  if is_upper c then ascii_of_N (code c + 32) else c.

(** [os.path.basename] (posixpath):
    [i = p.rfind('/') + 1; return p[i:]]. *)
Definition basename (p : string) : string :=
  let i := (rfind "/" p + 1)%Z in
  from (Z.to_nat i) p.

(** *** [repr] and [ascii] of a [str] *)

Definition hex_digit (n : N) : ascii :=
  if (n <? 10)%N then ascii_of_N (48 + n) else ascii_of_N (87 + n).

(** [\xhh] *)
Definition escape_x (c : ascii) : string :=
  String "\" (String "x" (String (hex_digit (code c / 16))
                          (String (hex_digit (code c mod 16)) EmptyString))).

(** [str.isprintable] on one code point below 256: the ASCII graphic
    characters and space, and U+00A1..U+00FF except the soft hyphen. *)
Definition printable (c : ascii) : bool :=
  ((32 <=? code c)%N && (code c <? 127)%N)
  || ((161 <=? code c)%N && negb (code c =? 173)%N).

Definition squote : ascii := "'".
Definition dquote : ascii := "034".
Definition backslash : ascii := "\".

Definition repr_char (quote : ascii) (ascii_only : bool) (c : ascii) : string :=
  if Ascii.eqb c quote || Ascii.eqb c backslash then String backslash (String c EmptyString)
  else if Ascii.eqb c "009" then String backslash "t"
  else if Ascii.eqb c "010" then String backslash "n"
  else if Ascii.eqb c "013" then String backslash "r"
  else if negb (printable c) then escape_x c
  else if ascii_only && negb (is_ascii c) then escape_x c
  else String c EmptyString.

Fixpoint repr_body (quote : ascii) (ascii_only : bool) (s : string) : string :=
  match s with
  | EmptyString => EmptyString
  | String c rest => repr_char quote ascii_only c +:+ repr_body quote ascii_only rest
  end.

(** [repr(s)] ([ascii_only = false]) and [ascii(s)] ([ascii_only = true]):
    double quotes are used only when [s] has a single quote and no
    double quote. *)
Definition repr (ascii_only : bool) (s : string) : string :=
  let quote := if contains squote s && negb (contains dquote s) then dquote else squote in
  String quote (repr_body quote ascii_only s) +:+ String quote EmptyString.

Fixpoint join (sep : string) (l : list string) : string :=
  match l with
  | [] => EmptyString
  | [x] => x
  | x :: rest => x +:+ sep +:+ join sep rest
  end.

(** [repr(d)] of a dictionary of strings, its items in insertion order. *)
Definition repr_dict (ascii_only : bool) (d : list (string * string)) : string :=
  "{" +:+ join ", " ((λ kv, repr ascii_only kv.1 +:+ ": " +:+ repr ascii_only kv.2) <$> d) +:+ "}".

End PyStr.

(** ** The [%] operator on [str] with a dictionary on the right

    [fmt % d] where [d] maps strings to strings, as the interpreter's
    formatter reads it, one character at a time.  A conversion is
    <<%[(key)][flags][width][.precision][h|l|L]type>>.  The formatter
    keeps a current argument: the dictionary itself at first, the value
    of [key] after a [(key)]; a conversion consumes it, and a second
    conversion without a key of its own finds none left.  Memory
    exhaustion on a huge width is not modelled. *)
Module PyFormat.
Import PyStr.

Definition mapping := list (string * string).

Fixpoint lookup_key (k : string) (d : mapping) : option string :=
  match d with
  | [] => None
  | (k', v) :: rest => if String.eqb k' k then Some v else lookup_key k rest
  end.

Inductive fmt_arg :=
| ArgMapping
| ArgValue (s : string).

(** Flags [+], space, [#] and [0] are read and, for the string-valued
    conversions reachable here, change nothing; [-] left-justifies. *)
Record conv_spec := {
  ljust : bool;
  width : option N;
  prec : option N
}.

Definition spec0 : conv_spec := {| ljust := false; width := None; prec := None |}.

Inductive phase :=
| Text
| Percent
| Key (pcount : nat) (key : string)
| Flags (sp : conv_spec)
| Width (sp : conv_spec) (w : N)
| Dot (sp : conv_spec)
| Prec (sp : conv_spec) (p : N)
| Conv (sp : conv_spec).

Record fmt_state := {
  out : string;
  arg : fmt_arg;
  avail : bool
}.

Definition emit (s : string) (st : fmt_state) : fmt_state :=
  {| out := out st +:+ s; arg := arg st; avail := avail st |}.

Definition PY_SSIZE_T_MAX : N := 9223372036854775807.
Definition INT_MAX : N := 2147483647.

Definition digit_value (c : ascii) : N := (code c - 48)%N.

(** The converted text cut to the precision ([s], [r], [a] only) and
    padded with spaces to the width. *)
Definition pad (sp : conv_spec) (cut : bool) (s : string) : string :=
  let body :=
    match prec sp with
    | Some p => if cut then take (N.to_nat p) s else s
    | None => s
    end in
  let len := N.of_nat (String.length body) in
  match width sp with
  | Some w =>
      if (len <? w)%N then
        let fill := repeat " " (N.to_nat (w - len)) in
        if ljust sp then body +:+ fill else fill +:+ body
      else body
  | None => body
  end.

Definition is_numeric_type (c : ascii) : bool :=
  contains c "iduoxXeEfFgG".

(** The conversion proper: take the current argument, convert it as the
    type character says, write the padded text. *)
Definition convert (d : mapping) (sp : conv_spec) (c : ascii) (st : fmt_state)
  : outcome (phase * fmt_state) :=
  if avail st then
    let st' := {| out := out st; arg := arg st; avail := false |} in
    if Ascii.eqb c "s" then
      let text := match arg st with ArgValue s => s | ArgMapping => repr_dict false d end in
      Return (Text, emit (pad sp true text) st')
    else if Ascii.eqb c "r" then
      let text := match arg st with ArgValue s => repr false s | ArgMapping => repr_dict false d end in
      Return (Text, emit (pad sp true text) st')
    else if Ascii.eqb c "a" then
      let text := match arg st with ArgValue s => repr true s | ArgMapping => repr_dict true d end in
      Return (Text, emit (pad sp true text) st')
    else if is_numeric_type c then Raise TypeError
    else if Ascii.eqb c "c" then
      match arg st with
      | ArgValue (String a EmptyString) => Return (Text, emit (pad sp false (String a EmptyString)) st')
      | _ => Raise TypeError
      end
    else Raise ValueError
  else Raise TypeError.

Definition after_len (d : mapping) (sp : conv_spec) (c : ascii) (st : fmt_state)
  : outcome (phase * fmt_state) :=
  if contains c "hlL" then Return (Conv sp, st) else convert d sp c st.

Definition after_width (d : mapping) (sp : conv_spec) (c : ascii) (st : fmt_state)
  : outcome (phase * fmt_state) :=
  if Ascii.eqb c "." then Return (Dot sp, st) else after_len d sp c st.

Definition with_width (sp : conv_spec) (w : N) : conv_spec :=
  {| ljust := ljust sp; width := Some w; prec := prec sp |}.

Definition with_prec (sp : conv_spec) (p : N) : conv_spec :=
  {| ljust := ljust sp; width := width sp; prec := Some p |}.

(** A [*] asks the next argument for an integer; the arguments here are
    a dictionary or a string, or there is none left: [TypeError]. *)
Definition after_flags (d : mapping) (sp : conv_spec) (c : ascii) (st : fmt_state)
  : outcome (phase * fmt_state) :=
  if Ascii.eqb c "*" then Raise TypeError
  else if is_digit c then Return (Width sp (digit_value c), st)
  else after_width d sp c st.

Definition in_flags (d : mapping) (sp : conv_spec) (c : ascii) (st : fmt_state)
  : outcome (phase * fmt_state) :=
  if Ascii.eqb c "-" then Return (Flags {| ljust := true; width := width sp; prec := prec sp |}, st)
  else if contains c "+ #0" then Return (Flags sp, st)
  else after_flags d sp c st.

Definition format_step (d : mapping) (ph : phase) (c : ascii) (st : fmt_state)
  : outcome (phase * fmt_state) :=
  match ph with
  | Text =>
      if Ascii.eqb c "%" then Return (Percent, st)
      else Return (Text, emit (String c EmptyString) st)
  | Percent =>
      if Ascii.eqb c "%" then Return (Text, emit "%" st)
      else if Ascii.eqb c "(" then Return (Key 1 EmptyString, st)
      else in_flags d spec0 c st
  | Key pcount key =>
      if Ascii.eqb c ")" then
        match pcount with
        | 0 | 1 =>
            match lookup_key key d with
            | Some v => Return (Flags spec0, {| out := out st; arg := ArgValue v; avail := true |})
            | None => Raise KeyError
            end
        | S n => Return (Key n (key +:+ ")"), st)
        end
      else if Ascii.eqb c "(" then Return (Key (S pcount) (key +:+ "("), st)
      else Return (Key pcount (key +:+ String c EmptyString), st)
  | Flags sp => in_flags d sp c st
  | Width sp w =>
      if is_digit c then
        if ((PY_SSIZE_T_MAX - digit_value c) / 10 <? w)%N then Raise ValueError
        else Return (Width sp (w * 10 + digit_value c), st)
      else after_width d (with_width sp w) c st
  | Dot sp =>
      if Ascii.eqb c "*" then Raise TypeError
      else if is_digit c then Return (Prec sp (digit_value c), st)
      else after_len d (with_prec sp 0) c st
  | Prec sp p =>
      if is_digit c then
        if ((INT_MAX - digit_value c) / 10 <? p)%N then Raise ValueError
        else Return (Prec sp (p * 10 + digit_value c), st)
      else after_len d (with_prec sp p) c st
  | Conv sp => convert d sp c st
  end.

(** The format string is consumed left to right; ending inside a
    conversion is a [ValueError] (incomplete format). *)
Fixpoint format_run (d : mapping) (fmt : string) (ph : phase) (st : fmt_state)
  : outcome string :=
  match fmt with
  | EmptyString =>
      match ph with
      | Text => Return (out st)
      | _ => Raise ValueError
      end
  | String c rest =>
      match format_step d ph c st with
      | Return (ph', st') => format_run d rest ph' st'
      | Raise e => Raise e
      end
  end.

(** [fmt % d] *)
Definition pyformat (fmt : string) (d : mapping) : outcome string :=
  format_run d fmt Text {| out := EmptyString; arg := ArgMapping; avail := true |}.

End PyFormat.

(** ** [urllib.parse.urlsplit]

    The split of a URL into scheme, network location, path, query and
    fragment, following CPython 3.11's [urlsplit(url)] with its default
    arguments.  Two validations of that function look inside the network
    location with tables this development does not carry (the IPv6 /
    IPvFuture grammar of a bracketed host, Unicode NFKC normalisation of
    a non-ASCII location); they are the section's two parameters, each
    answering whether the location passes. *)
Module Url.
Import PyStr.

Record SplitResult := {
  scheme : string;
  netloc : string;
  path : string;
  query : string;
  fragment : string
}.

Section UrlSplit.

Variable check_bracketed_netloc : string -> bool.
Variable checknetloc_nfkc : string -> bool.

(** [_WHATWG_C0_CONTROL_OR_SPACE] *)
Definition c0_control_or_space (c : ascii) : bool := (code c <=? 32)%N.

(** [_UNSAFE_URL_BYTES_TO_REMOVE] *)
Definition unsafe_url_byte (c : ascii) : bool :=
  Ascii.eqb c "009" || Ascii.eqb c "013" || Ascii.eqb c "010".

(** [c in scheme_chars] *)
Definition scheme_char (c : ascii) : bool :=
  is_lower c || is_upper c || is_digit c || contains c "+-.".

Definition is_netloc_delim (c : ascii) : bool := contains c "/?#".

(** [_splitnetloc(url, 2)] on the text after the two slashes: the
    location runs up to the first of [/], [?], [#]. *)
Fixpoint splitnetloc (s : string) : string * string :=
  match s with
  | EmptyString => (EmptyString, EmptyString)
  | String c rest =>
      if is_netloc_delim c then (EmptyString, s)
      else let '(loc, tail) := splitnetloc rest in (String c loc, tail)
  end.

(** The scheme, when the text before the first colon is not empty,
    starts with an ASCII letter and is made of scheme characters. *)
Definition split_scheme (url : string) : string * string :=
  match partition ":" url with
  | Some (String c0 before, after) =>
      if (is_lower c0 || is_upper c0) && all scheme_char (String c0 before)
      then (map lower (String c0 before), after)
      else (EmptyString, url)
  | _ => (EmptyString, url)
  end.

Definition brackets_ok (loc : string) : bool :=
  match contains "[" loc, contains "]" loc with
  | true, true => check_bracketed_netloc loc
  | false, false => true
  | _, _ => false
  end.

(** [_checknetloc] *)
Definition checknetloc (loc : string) : bool :=
  match loc with
  | EmptyString => true
  | _ => if all is_ascii loc then true else checknetloc_nfkc loc
  end.

Definition urlsplit (url : string) : outcome SplitResult :=
  let url := lstrip c0_control_or_space url in
  let url := filter (λ c, negb (unsafe_url_byte c)) url in
  let '(sch, url) := split_scheme url in
  let '(loc, url) :=
    match url with
    | String "/" (String "/" rest) => splitnetloc rest
    | _ => (EmptyString, url)
    end in
  if negb (brackets_ok loc) then Raise ValueError
  else
    let '(url, frag) :=
      match partition "#" url with
      | Some (before, after) => (before, after)
      | None => (url, EmptyString)
      end in
    let '(url, qry) :=
      match partition "?" url with
      | Some (before, after) => (before, after)
      | None => (url, EmptyString)
      end in
    if negb (checknetloc loc) then Raise ValueError
    else Return {| scheme := sch; netloc := loc; path := url; query := qry; fragment := frag |}.

End UrlSplit.

(** URLs of the shape [scheme://authority] followed by nothing, or by a
    path, a query or a fragment, and free of the characters [urlsplit]
    removes or validates: what [authority_char] and [well_formed] say. *)
Definition authority_char (c : ascii) : bool :=
  is_ascii c && negb (unsafe_url_byte c) && negb (is_netloc_delim c)
  && negb (contains c "[]").

Definition starts_tail (rest : string) : bool :=
  match rest with
  | EmptyString => true
  | String c _ => is_netloc_delim c
  end.

Definition well_formed (sch authority rest : string) : bool :=
  match sch with
  | String c0 _ => is_lower c0 || is_upper c0
  | EmptyString => false
  end
  && all scheme_char sch
  && all authority_char authority
  && starts_tail rest
  && all (λ c, negb (unsafe_url_byte c)) rest.

End Url.

(** ** Python values

    The values the proxy looks into: backend responses (dictionaries
    with a [ResponseMetadata] entry), status codes, credentials, keyword
    arguments.  Floating-point values are not modelled. *)
#[warnings="-register-all"]
Inductive pyval :=
| VNone
| VBool (b : bool)
| VInt (z : Z)
| VStr (s : string)
| VList (l : list pyval)
| VTuple (l : list pyval)
| VDict (d : gmap string pyval).

#[global] Instance outcome_ret : MRet outcome := λ A a, Return a.
#[global] Instance outcome_bind : MBind outcome := λ A B f o,
  match o with
  | Return a => f a
  | Raise e => Raise e
  end.

Module Py.

(** [bool(v)] *)
Definition truthy (v : pyval) : bool :=
  match v with
  | VNone => false
  | VBool b => b
  | VInt z => negb (z =? 0)%Z
  | VStr s => negb (String.eqb s "")
  | VList l | VTuple l => negb (Nat.eqb (length l) 0)
  | VDict d => negb (Nat.eqb (size d) 0)
  end.

(** [a and b] *)
Definition and_ (a b : pyval) : pyval := if truthy a then b else a.

(** [v == n] for an integer literal [n] *)
Definition eq_int (v : pyval) (n : Z) : bool :=
  match v with
  | VInt z => (z =? n)%Z
  | VBool b => ((if b then 1 else 0) =? n)%Z
  | _ => false
  end.

(** [v.get(key)] and [v.get(key, None)]: only a dictionary has [get]. *)
Definition get (v : pyval) (key : string) : outcome pyval :=
  match v with
  | VDict d => Return (default VNone (d !! key))
  | _ => Raise AttributeError
  end.

(** The items [for x in v] visits.  A dictionary yields its keys; the
    order is that of the finite map, where Python uses insertion order. *)
Definition iter (v : pyval) : outcome (list pyval) :=
  match v with
  | VList l | VTuple l => Return l
  | VStr s => Return ((λ c, VStr (String c EmptyString)) <$> list_ascii_of_string s)
  | VDict d => Return ((λ kv, VStr kv.1) <$> map_to_list d)
  | VNone | VBool _ | VInt _ => Raise TypeError
  end.

(** [(a, b) = v] *)
Definition unpack2 (v : pyval) : outcome (pyval * pyval) :=
  items ← iter v;
  match items with
  | [a; b] => Return (a, b)
  | _ => Raise ValueError
  end.

(** [f(k1=v1, ..., **kwargs)]: the keyword arguments the callee
    receives; a keyword given twice is a [TypeError]. *)
Definition keywords (fixed : list (string * pyval)) (kwargs : gmap string pyval)
  : outcome (gmap string pyval) :=
  if forallb (λ kv, negb (bool_decide (is_Some (kwargs !! kv.1)))) fixed
  then Return (list_to_map fixed ∪ kwargs)
  else Raise TypeError.

End Py.

(** ** The world a call runs in *)

(** What a call leaves behind, in order: messages to [self.log.error],
    clients built by [boto3.client], and the requests that reached a
    client. *)
Inductive Event :=
| LogError (msg : string)
| NewClient (endpoint_url : string) (ak sk : pyval)
| ClientCall (method : string) (kwargs : gmap string pyval)
| DownloadFileobj (bucket : string) (key : pyval) (fd : nat).

Record World := {
  trace : list Event;
  (** file objects that are open, by descriptor, with their path *)
  open_files : gmap nat string;
  (** contents of the files written so far, by the path they were
      opened with; two paths that name one file are not identified *)
  files : gmap string string
}.

Definition M (A : Type) : Type := World → outcome A * World.

#[global] Instance M_ret : MRet M := λ A a w, (Return a, w).
#[global] Instance M_bind : MBind M := λ A B f m w,
  match m w with
  | (Return a, w') => f a w'
  | (Raise e, w') => (Raise e, w')
  end.

Definition lift {A} (o : outcome A) : M A := λ w, (o, w).

Definition add_event (ev : Event) (w : World) : World :=
  {| trace := trace w ++ [ev]; open_files := open_files w; files := files w |}.

Definition record (ev : Event) : M unit := λ w, (Return (), add_event ev w).

(** *** Files *)
Section Files.

(** The operating system refusing to open a path for writing. *)
Variable open_error : string → option exn.

(** The operating system failing to flush a file when it is closed:
    for a path and the content written to it, the error and the
    content that reached the file. *)
Variable close_error : string → string → option (exn * string).

(** [open(path, 'wb')]: a new descriptor; the file is created or
    truncated. *)
Definition open_wb (path : string) : M nat := λ w,
  match open_error path with
  | Some e => (Raise e, w)
  | None =>
      let fd := fresh (dom (open_files w)) in
      (Return fd, {| trace := trace w;
                     open_files := <[fd := path]> (open_files w);
                     files := <[path := EmptyString]> (files w) |})
  end.

(** [f.write(data)] *)
Definition write (fd : nat) (data : string) : M unit := λ w,
  match open_files w !! fd with
  | Some path =>
      (Return (), {| trace := trace w;
                     open_files := open_files w;
                     files := <[path := default EmptyString (files w !! path) +:+ data]> (files w) |})
  | None => (Raise ValueError, w)
  end.

(** [f.close()]: what the file object still buffers is flushed and the
    descriptor is released.  The flush can fail, as when the device is
    full: the descriptor is released all the same, the error is raised,
    and the file keeps only what reached it.  Closing a file object
    that is closed already does nothing. *)
Definition close (fd : nat) : M unit := λ w,
  match open_files w !! fd with
  | Some path =>
      match close_error path (default EmptyString (files w !! path)) with
      | Some (e, reached) =>
          (Raise e, {| trace := trace w;
                       open_files := delete fd (open_files w);
                       files := <[path := reached]> (files w) |})
      | None =>
          (Return (), {| trace := trace w;
                         open_files := delete fd (open_files w);
                         files := files w |})
      end
  | None => (Return (), w)
  end.

(** [with open(path, 'wb') as f: body]: the file object's [__exit__]
    closes it however the body ends.  When the close succeeds, the
    body's result or exception leaves the block; when the close raises,
    its exception leaves the block instead of either. *)
Definition exit_closing {A} (fd : nat) (body : M A) : M A := λ w,
  let '(o, w') := body w in
  match close fd w' with
  | (Return _, w'') => (o, w'')
  | (Raise e, w'') => (Raise e, w'')
  end.

Definition with_open_wb {A} (path : string) (body : nat → M A) : M A :=
  f ← open_wb path;
  exit_closing f (body f).

End Files.

(** ** The proxy *)

(** A boto3 S3 client, as the proxy uses it: every method but one is
    called with keyword arguments and returns a response or raises;
    [download_fileobj(bucket, key, f)] writes what it received to the
    file object [f] and then returns or raises.  The client comprises
    all that boto3 does with a call, its validation of the parameters
    before a request is sent included: an exception of that validation
    is one of the ways [api] raises (see [validates_bucket]). *)
Record S3Client := {
  api : string → gmap string pyval → outcome pyval;
  download_fileobj : string → pyval → string * outcome pyval
}.

(** What the proxy reads of [self]: the endpoint that [get_endpoint()]
    returns, and [session._sdk_connection.get_ak_sk]: [None] when the
    connection has no such attribute, else the outcome of calling it. *)
Record Proxy := {
  get_endpoint : string;
  get_ak_sk : option (outcome pyval)
}.

(** What a container method returns: the [Container] that
    [_translate_response] built, or the response as the backend gave it. *)
Inductive Result (Container : Type) :=
| Translated (c : Container)
| Raw (response : pyval).
Arguments Translated {Container} c.
Arguments Raw {Container} response.

Definition opt_str (key : option string) : pyval :=
  match key with
  | Some k => VStr k
  | None => VNone
  end.

(** ** Sample values

    A proxy configured as the Open Telekom Cloud documents it, clients
    that answer every request alike, and responses with and without a
    metadata envelope; the closed statements further down run on them. *)
Module Sample.

Definition world0 : World := {| trace := []; open_files := ∅; files := ∅ |}.

Definition keys (ak sk : string) : option (outcome pyval) :=
  Some (Return (VTuple [VStr ak; VStr sk])).

Definition proxy : Proxy :=
  {| get_endpoint := "https://obs.%(region_name)s.otc.t-systems.com/v1";
     get_ak_sk := keys "AK" "SK" |}.

Definition proxy_at (endpoint : string) : Proxy :=
  {| get_endpoint := endpoint; get_ak_sk := keys "AK" "SK" |}.

Definition proxy_empty_keys : Proxy :=
  {| get_endpoint := "https://obs.%(region_name)s.otc.t-systems.com/v1";
     get_ak_sk := keys "" "" |}.

(** [{'ResponseMetadata': {'HTTPStatusCode': status}}] *)
Definition response (status : Z) : pyval :=
  VDict {[ "ResponseMetadata" := VDict {[ "HTTPStatusCode" := VInt status ]} ]}.

(** [{}] *)
Definition bare_response : pyval := VDict ∅.

(** [{'ResponseMetadata': {...200}, 'Buckets': [{'Name': 'a'}, {'Name': 'b'}]}] *)
Definition bucket (name : string) : pyval := VDict {[ "Name" := VStr name ]}.
Definition listing : pyval :=
  VDict (<["Buckets" := VList [bucket "a"; bucket "b"]]>
         {[ "ResponseMetadata" := VDict {[ "HTTPStatusCode" := VInt 200 ]} ]}).

(** A client that answers every request with [r], and whose download
    writes [data] and then ends as [fin]. *)
Definition client (r : pyval) (data : string) (fin : outcome pyval) : S3Client :=
  {| api := λ _ _, Return r; download_fileobj := λ _ _, (data, fin) |}.

Definition answering (r : pyval) : string → pyval → pyval → outcome S3Client :=
  λ _ _ _, Return (client r EmptyString (Return VNone)).

Definition failing_transfer (data : string) (e : exn)
  : string → pyval → pyval → outcome S3Client :=
  λ _ _ _, Return (client VNone data (Raise e)).

(** The world after [get_boto3_client proxy "eu-de"] on [world0]. *)
Definition world1 : World :=
  add_event (NewClient "https://obs.eu-de.otc.t-systems.com" (VStr "AK") (VStr "SK")) world0.

Definition region : string := "eu-de".

(** A stand-in for [Container]: it keeps the response it was built from. *)
Definition translate (r : pyval) : outcome pyval := Return r.

(** A translation of listed buckets that needs their [Name]. *)
Definition translate_named (r : pyval) : outcome pyval :=
  match r with
  | VDict d =>
      match d !! "Name" with
      | Some name => Return name
      | None => Raise KeyError
      end
  | _ => Raise TypeError
  end.

(** A client whose every request raises [e], and its factory. *)
Definition raising_client (e : exn) : S3Client :=
  {| api := λ _ _, Raise e; download_fileobj := λ _ _, (EmptyString, Raise e) |}.

Definition raising (e : exn) : string → pyval → pyval → outcome S3Client :=
  λ _ _ _, Return (raising_client e).



(** A factory of clients whose download writes [data] and returns. *)
Definition transferring (data : string) : string → pyval → pyval → outcome S3Client :=
  λ _ _ _, Return (client VNone data (Return VNone)).

(** A world where [/tmp/out] already has content. *)
Definition world_with_file : World :=
  {| trace := []; open_files := ∅; files := {[ "/tmp/out" := "old content" ]} |}.

Definition refused (path : string) : option exn := Some OSError.

Definition writable (path : string) : option exn := None.

(** Every close flushes. *)
Definition flushes (path content : string) : option (exn * string) := None.

(** A full device: no close can flush, and nothing reaches the file. *)
Definition full_device (path content : string) : option (exn * string) :=
  Some (OSError, EmptyString).
Definition accept (loc : string) : bool := true.

End Sample.

Section ProxyMethods.

(** [Container] is defined in [otcextensions/sdk/s3/v1/container.py];
    [_translate_response r] stands for
    [Container.new()._translate_response(r)], and likewise
    [_translate_container_response].  [boto3.client] is the library's
    factory.  The methods below are defined, and the properties hold,
    for any of them. *)
Context {Container : Type}.
Variable _translate_response : pyval → outcome Container.
Variable _translate_container_response : pyval → outcome Container.
Variable boto3_client : string → pyval → pyval → outcome S3Client.
Variable open_error : string → option exn.
Variable close_error : string → string → option (exn * string).
Variable check_bracketed_netloc : string → bool.
Variable checknetloc_nfkc : string → bool.

Definition urlsplit : string → outcome Url.SplitResult :=
  Url.urlsplit check_bracketed_netloc checknetloc_nfkc.

Definition get_container_endpoint (self : Proxy) (region : string) : outcome string :=
  split_url ← urlsplit (get_endpoint self);
  PyFormat.pyformat (Url.scheme split_url +:+ "://" +:+ Url.netloc split_url)
                    [("region_name", region)].

(** [ak] and [sk] are bound only when the connection has [get_ak_sk];
    reading them unbound is an [UnboundLocalError]. *)
Definition _set_ak_sk_keys (self : Proxy) : M pyval :=
  match get_ak_sk self with
  | Some call =>
      '(ak, sk) ← lift (call ≫= Py.unpack2);
      if negb (Py.truthy (Py.and_ ak sk)) then
        record (LogError "Cannot obtain AK/SK from config");;
        mret VNone
      else mret (VTuple [ak; sk])
  | None => lift (Raise UnboundLocalError)
  end.

Definition get_boto3_client (self : Proxy) (region_name : string) : M S3Client :=
  endpoint ← lift (get_container_endpoint self region_name);
  keys ← _set_ak_sk_keys self;
  '(ak, sk) ← lift (Py.unpack2 keys);
  s3_client ← lift (boto3_client endpoint ak sk);
  record (NewClient endpoint ak sk);;
  mret s3_client.

(** [s3_client.method(k1=v1, ..., **kwargs)] *)
Definition client_call (s3_client : S3Client) (method : string)
    (fixed : list (string * pyval)) (kwargs : gmap string pyval) : M pyval :=
  kw ← lift (Py.keywords fixed kwargs);
  record (ClientCall method kw);;
  lift (api s3_client method kw).

(** The block each container method ends with:
<<
    if response.get('ResponseMetadata'):
        if response.get('ResponseMetadata').get('HTTPStatusCode', None) == code:
            container = Container.new()
            return container._translate_response(response)
    return response
>> *)
Definition translate_if_status (code : Z) (response : pyval) : outcome (Result Container) :=
  metadata ← Py.get response "ResponseMetadata";
  if Py.truthy metadata then
    metadata ← Py.get response "ResponseMetadata";
    status ← Py.get metadata "HTTPStatusCode";
    if Py.eq_int status code then
      container ← _translate_response response;
      Return (Translated container)
    else Return (Raw response)
  else Return (Raw response).

(** *** Containers *)

(** One step of the generator's loop per bucket; the run stops at the
    first translation that raises. *)
Fixpoint yield_each (buckets : list pyval) : list Container * outcome unit :=
  match buckets with
  | [] => ([], Return ())
  | bucket :: rest =>
      match _translate_container_response bucket with
      | Return container =>
          let '(more, fin) := yield_each rest in (container :: more, fin)
      | Raise e => ([], Raise e)
      end
  end.

(** [containers(region, **query)] is a generator: nothing runs until it
    is iterated.  This is the iteration run to its end: the containers
    yielded, and whether the generator then finished or raised.  The
    query is not used by the source. *)
Definition containers (self : Proxy) (region : string) (query : gmap string pyval)
  : World → (list Container * outcome unit) * World := λ w,
  let prologue : M (list pyval) :=
    s3_client ← get_boto3_client self region;
    response ← client_call s3_client "list_buckets" [] ∅;
    buckets ← lift (Py.get response "Buckets");
    lift (Py.iter buckets) in
  match prologue w with
  | (Return buckets, w') => (yield_each buckets, w')
  | (Raise e, w') => (([], Raise e), w')
  end.

Definition create_container (self : Proxy) (container_name region : string)
    (kwargs : gmap string pyval) : M (Result Container) :=
  s3_client ← get_boto3_client self region;
  let location := VDict {[ "LocationConstraint" := VStr region ]} in
  response ← client_call s3_client "create_bucket"
               [("Bucket", VStr container_name); ("CreateBucketConfiguration", location)]
               kwargs;
  lift (translate_if_status 200 response).

Definition get_container (self : Proxy) (container_name region : string)
    (kwargs : gmap string pyval) : M (Result Container) :=
  s3_client ← get_boto3_client self region;
  response ← client_call s3_client "head_bucket" [("Bucket", VStr container_name)] kwargs;
  lift (translate_if_status 200 response).

Definition delete_container (self : Proxy) (container_name region : string)
  : M (Result Container) :=
  s3_client ← get_boto3_client self region;
  response ← client_call s3_client "delete_bucket" [("Bucket", VStr container_name)] ∅;
  lift (translate_if_status 204 response).

Definition get_container_acl (self : Proxy) (container_name region : string)
    (kwargs : gmap string pyval) : M (Result Container) :=
  s3_client ← get_boto3_client self region;
  response ← client_call s3_client "get_bucket_acl" [("Bucket", VStr container_name)] kwargs;
  lift (translate_if_status 200 response).

Definition put_container_acl (self : Proxy) (container_name region : string)
    (kwargs : gmap string pyval) : M (Result Container) :=
  s3_client ← get_boto3_client self region;
  response ← client_call s3_client "put_bucket_acl" [("Bucket", VStr container_name)] kwargs;
  lift (translate_if_status 200 response).

Definition put_container_policy (self : Proxy) (container_name : string) (policy : pyval)
    (region : string) (kwargs : gmap string pyval) : M (Result Container) :=
  s3_client ← get_boto3_client self region;
  response ← client_call s3_client "put_bucket_policy"
               [("Bucket", VStr container_name); ("Policy", policy)] kwargs;
  lift (translate_if_status 200 response).

Definition get_container_policy (self : Proxy) (container_name region : string)
    (kwargs : gmap string pyval) : M (Result Container) :=
  s3_client ← get_boto3_client self region;
  response ← client_call s3_client "get_bucket_policy" [("Bucket", VStr container_name)] kwargs;
  lift (translate_if_status 200 response).

Definition delete_container_policy (self : Proxy) (container_name region : string)
    (kwargs : gmap string pyval) : M (Result Container) :=
  s3_client ← get_boto3_client self region;
  response ← client_call s3_client "delete_bucket_policy" [("Bucket", VStr container_name)] kwargs;
  lift (translate_if_status 204 response).

(** *** Objects *)

Definition objects (self : Proxy) (container_name region : string)
    (kwargs : gmap string pyval) : M pyval :=
  s3_client ← get_boto3_client self region;
  client_call s3_client "list_objects" [("Bucket", VStr container_name)] kwargs.

Definition upload_object (self : Proxy) (container_name file_name region : string)
    (key : option string) (kwargs : gmap string pyval) : M pyval :=
  let key := match key with
             | None => PyStr.basename file_name
             | Some k => k
             end in
  s3_client ← get_boto3_client self region;
  client_call s3_client "upload_file"
    [("Fileobj", VStr file_name); ("Bucket", VStr container_name); ("Key", VStr key)] kwargs.

(** [s3_client.download_fileobj(container_name, key, f)] *)
Definition download_into (s3_client : S3Client) (container_name : string) (key : pyval)
    (f : nat) : M pyval :=
  record (DownloadFileobj container_name key f);;
  let '(data, result) := download_fileobj s3_client container_name key in
  write f data;;
  lift result.

Definition download_object (self : Proxy) (file_name container_name region : string)
    (key : option string) : M pyval :=
  s3_client ← get_boto3_client self region;
  with_open_wb open_error close_error file_name
    (λ f, download_into s3_client container_name (opt_str key) f);;
  mret VNone.

Definition copy_object (self : Proxy) (container_name : string) (copy_source : pyval)
    (key region : string) (acl : pyval) (kwargs : gmap string pyval) : M pyval :=
  let kwargs := if Py.truthy acl then <["ACL" := acl]> kwargs else kwargs in
  s3_client ← get_boto3_client self region;
  client_call s3_client "copy_object"
    [("Bucket", VStr container_name); ("CopySource", copy_source); ("Key", VStr key)] kwargs.

Definition upload_part_copy (self : Proxy) (container_name : string) (copy_source : pyval)
    (key : string) (part_number upload_id : pyval) (region : string)
    (kwargs : gmap string pyval) : M pyval :=
  s3_client ← get_boto3_client self region;
  client_call s3_client "upload_part_copy"
    [("Bucket", VStr container_name); ("CopySource", copy_source);
     ("PartNumber", part_number); ("UploadId", upload_id); ("Key", VStr key)] kwargs.

Definition get_object (self : Proxy) (container_name key region : string)
    (kwargs : gmap string pyval) : M pyval :=
  s3_client ← get_boto3_client self region;
  client_call s3_client "get_object" [("Bucket", VStr container_name); ("Key", VStr key)] kwargs.

(** The keyword arguments of [delete_object] are accepted and not
    forwarded. *)
Definition delete_object (self : Proxy) (container_name key region : string)
    (kwargs : gmap string pyval) : M pyval :=
  s3_client ← get_boto3_client self region;
  client_call s3_client "delete_object" [("Bucket", VStr container_name); ("Key", VStr key)] ∅.

(** *** What the statements below read off a response *)

(** The status a response carries: the [HTTPStatusCode] of its
    [ResponseMetadata] dictionary, when that dictionary is not empty
    ([VNone] when the dictionary has no such entry). *)
Definition http_status (response : pyval) : option pyval :=
  match response with
  | VDict r =>
      match r !! "ResponseMetadata" with
      | Some (VDict metadata) =>
          if Py.truthy (VDict metadata)
          then Some (default VNone (metadata !! "HTTPStatusCode"))
          else None
      | _ => None
      end
  | _ => None
  end.

(** A response without a metadata envelope: a dictionary whose
    [ResponseMetadata] is missing, or present and falsy ([None], [{}]). *)
Definition lacks_envelope (response : pyval) : bool :=
  match response with
  | VDict r =>
      match r !! "ResponseMetadata" with
      | Some v => negb (Py.truthy v)
      | None => true
      end
  | _ => false
  end.

(** The container methods that compare the status, and the status each
    compares it with. *)
Inductive container_method :=
| Create | Get | Delete | GetAcl | PutAcl | PutPolicy | GetPolicy | DeletePolicy.

Definition declared_status (m : container_method) : Z :=
  match m with
  | Delete | DeletePolicy => 204
  | _ => 200
  end.

Definition call_method (m : container_method) (self : Proxy) (container_name : string)
    (policy : pyval) (region : string) (kwargs : gmap string pyval) : M (Result Container) :=
  match m with
  | Create => create_container self container_name region kwargs
  | Get => get_container self container_name region kwargs
  | Delete => delete_container self container_name region
  | GetAcl => get_container_acl self container_name region kwargs
  | PutAcl => put_container_acl self container_name region kwargs
  | PutPolicy => put_container_policy self container_name policy region kwargs
  | GetPolicy => get_container_policy self container_name region kwargs
  | DeletePolicy => delete_container_policy self container_name region kwargs
  end.

(** The keywords the container methods and upload_object pass
    themselves; [no_clash kwargs]: none of them occurs in [kwargs]. *)
Definition own_keywords : list string :=
  ["Bucket"; "CreateBucketConfiguration"; "Policy"; "Fileobj"; "Key"].

Definition no_clash (kwargs : gmap string pyval) : Prop :=
  Forall (λ k, kwargs !! k = None) own_keywords.

Definition is_own_keyword (k : string) : bool := existsb (String.eqb k) own_keywords.

(** The client answers every request with [response]. *)
Definition answers (s3_client : S3Client) (response : pyval) : Prop :=
  ∀ method kw, api s3_client method kw = Return response.


(** ** Properties *)

(** *** Running the monad *)

Lemma bind_return {A B} (m : M A) (f : A → M B) w a w' :
  m w = (Return a, w') → (m ≫= f) w = f a w'.
Proof. intros Hm. unfold mbind, M_bind. by rewrite Hm. Qed.

Lemma bind_raise {A B} (m : M A) (f : A → M B) w e w' :
  m w = (Raise e, w') → (m ≫= f) w = (Raise e, w').
Proof. intros Hm. unfold mbind, M_bind. by rewrite Hm. Qed.

Lemma keywords_fresh fixed (kwargs : gmap string pyval) :
  Forall (λ kv : string * pyval, kwargs !! kv.1 = None) fixed →
  Py.keywords fixed kwargs = Return (list_to_map fixed ∪ kwargs).
Proof.
  intros Hfresh. unfold Py.keywords.
  replace (forallb _ fixed) with true; [done|].
  symmetry. apply forallb_forall. intros kv Hin.
  rewrite Forall_forall in Hfresh.
  apply list_elem_of_In, Hfresh in Hin.
  rewrite Hin. apply negb_true_iff, bool_decide_eq_false. by intros [? ?].
Qed.

Lemma keywords_no_clash fixed kwargs :
  no_clash kwargs →
  forallb (λ kv : string * pyval, is_own_keyword kv.1) fixed = true →
  Py.keywords fixed kwargs = Return (list_to_map fixed ∪ kwargs).
Proof.
  intros Hfree Hown. apply keywords_fresh, Forall_forall. intros kv Hkv.
  rewrite forallb_forall in Hown. apply list_elem_of_In, Hown in Hkv.
  apply existsb_exists in Hkv as (k & Hk & <-%String.eqb_eq).
  unfold no_clash in Hfree. rewrite Forall_forall in Hfree.
  by apply Hfree, list_elem_of_In.
Qed.

Lemma keywords_none fixed : Py.keywords fixed ∅ = Return (list_to_map fixed).
Proof.
  rewrite keywords_fresh.
  - by rewrite (right_id_L ∅ (∪)).
  - apply Forall_forall. intros. apply lookup_empty.
Qed.

Lemma client_call_run s3_client method fixed kwargs kw w :
  Py.keywords fixed kwargs = Return kw →
  client_call s3_client method fixed kwargs w
  = (api s3_client method kw, add_event (ClientCall method kw) w).
Proof.
  intros Hkw. unfold client_call, lift, record, mbind, M_bind. by rewrite Hkw.
Qed.

(** The shape of every forwarding method: build the client, make the
    call, post-process the response. *)
Lemma forward_run {A} (post : pyval → outcome A) self region method fixed kwargs
    w s3_client w1 kw :
  get_boto3_client self region w = (Return s3_client, w1) →
  Py.keywords fixed kwargs = Return kw →
  (client ← get_boto3_client self region;
   response ← client_call client method fixed kwargs;
   lift (post response)) w
  = (api s3_client method kw ≫= post, add_event (ClientCall method kw) w1).
Proof.
  intros Hclient Hkw.
  rewrite (bind_return _ _ _ _ _ Hclient).
  unfold mbind at 1, M_bind. rewrite (client_call_run _ _ _ _ _ _ Hkw).
  by destruct (api s3_client method kw).
Qed.

Lemma forward_raw_run self region method fixed kwargs w s3_client w1 kw :
  get_boto3_client self region w = (Return s3_client, w1) →
  Py.keywords fixed kwargs = Return kw →
  (client ← get_boto3_client self region;
   client_call client method fixed kwargs) w
  = (api s3_client method kw, add_event (ClientCall method kw) w1).
Proof.
  intros Hclient Hkw.
  rewrite (bind_return _ _ _ _ _ Hclient). by apply client_call_run.
Qed.

(** *** The status check *)

Lemma translate_if_status_match code response status :
  http_status response = Some status →
  Py.eq_int status code = true →
  translate_if_status code response
  = (container ← _translate_response response; Return (Translated container)).
Proof.
  intros Hstatus Heq. unfold translate_if_status.
  destruct response as [| | | | | |r]; try discriminate. simpl in *.
  destruct (r !! "ResponseMetadata") as [[| | | | | |metadata]|]; try discriminate.
  simpl in *. destruct (negb (size metadata =? 0)); [|discriminate].
  simpl. injection Hstatus as <-. by rewrite Heq.
Qed.

Lemma translate_if_status_other code response status :
  http_status response = Some status →
  Py.eq_int status code = false →
  translate_if_status code response = Return (Raw response).
Proof.
  intros Hstatus Heq. unfold translate_if_status.
  destruct response as [| | | | | |r]; try discriminate. simpl in *.
  destruct (r !! "ResponseMetadata") as [[| | | | | |metadata]|]; try discriminate.
  simpl in *. destruct (negb (size metadata =? 0)); [|discriminate].
  simpl. injection Hstatus as <-. by rewrite Heq.
Qed.

Lemma translate_if_status_bare code response :
  lacks_envelope response = true →
  translate_if_status code response = Return (Raw response).
Proof.
  intros Hbare. unfold translate_if_status.
  destruct response as [| | | | | |r]; try discriminate. simpl in *.
  destruct (r !! "ResponseMetadata") as [v|]; simpl; [|done].
  apply negb_true_iff in Hbare. by rewrite Hbare.
Qed.

(** *** Container methods and the status of the response *)

Lemma call_method_run m self container_name policy region kwargs w s3_client w1 response :
  get_boto3_client self region w = (Return s3_client, w1) →
  answers s3_client response →
  no_clash kwargs →
  (call_method m self container_name policy region kwargs w).1
  = translate_if_status (declared_status m) response.
Proof.
  intros Hclient Hanswers Hfree.
  destruct m; simpl;
    [ unfold create_container | unfold get_container | unfold delete_container
    | unfold get_container_acl | unfold put_container_acl | unfold put_container_policy
    | unfold get_container_policy | unfold delete_container_policy ];
    (erewrite forward_run;
       [ | exact Hclient | first [ apply keywords_none | by apply keywords_no_clash ] ]);
    by rewrite Hanswers.
Qed.

Lemma delete_object_run self container_name key region kwargs w s3_client w1 :
  get_boto3_client self region w = (Return s3_client, w1) →
  delete_object self container_name key region kwargs w
  = (api s3_client "delete_object"
       (list_to_map [("Bucket", VStr container_name); ("Key", VStr key)]),
     add_event (ClientCall "delete_object"
       (list_to_map [("Bucket", VStr container_name); ("Key", VStr key)])) w1).
Proof.
  intros Hclient. unfold delete_object.
  erewrite forward_raw_run; [done | exact Hclient | apply keywords_none].
Qed.

(** C1 (as amended).  For each of the eight container methods, once the
    client is built and the backend answers with a response that carries
    a status: the method returns the translated Container exactly when
    the status equals the code the method compares with (200, and 204
    for delete_container and delete_container_policy), and the raw
    response for every other status.  delete_object compares nothing: it
    returns the raw response whatever the status. *)
Theorem container_methods_translate_only_declared_status
    m self container_name key policy region kwargs w s3_client w1 response :
  get_boto3_client self region w = (Return s3_client, w1) →
  answers s3_client response →
  no_clash kwargs →
  (∀ status, http_status response = Some status →
     (call_method m self container_name policy region kwargs w).1
     = if Py.eq_int status (declared_status m)
       then container ← _translate_response response; Return (Translated container)
       else Return (Raw response))
  ∧ (delete_object self container_name key region kwargs w).1 = Return response.
Proof.
  intros Hclient Hanswers Hfree. split.
  - intros status Hstatus.
    rewrite (call_method_run _ _ _ _ _ _ _ _ _ _ Hclient Hanswers Hfree).
    destruct (Py.eq_int status (declared_status m)) eqn:Hcode.
    + by apply translate_if_status_match with status.
    + by apply translate_if_status_other with status.
  - rewrite (delete_object_run _ _ _ _ _ _ _ _ Hclient). simpl. apply Hanswers.
Qed.

(** C2 (as amended).  When the backend's response has no metadata
    envelope ([ResponseMetadata] missing, or empty), each container
    method returns that response itself, unchanged, as its ordinary
    return value: nothing is raised and nothing is translated. *)
Theorem response_without_envelope_is_returned
    m self container_name policy region kwargs w s3_client w1 response :
  get_boto3_client self region w = (Return s3_client, w1) →
  answers s3_client response →
  no_clash kwargs →
  lacks_envelope response = true →
  (call_method m self container_name policy region kwargs w).1 = Return (Raw response).
Proof.
  intros Hclient Hanswers Hfree Hbare.
  rewrite (call_method_run _ _ _ _ _ _ _ _ _ _ Hclient Hanswers Hfree).
  by apply translate_if_status_bare.
Qed.

Lemma bucket_keywords container_name :
  Py.keywords [("Bucket", VStr container_name)] ∅
  = Return {[ "Bucket" := VStr container_name ]}.
Proof. rewrite keywords_none. simpl. by rewrite insert_empty. Qed.

(** C5.  When the backend answers delete_container's request with
    status 200, the method returns (does not raise) the raw response,
    not a translated Container; the request has reached the backend. *)
Theorem delete_container_status_200_returns_raw_response
    self container_name region w s3_client w1 response :
  get_boto3_client self region w = (Return s3_client, w1) →
  api s3_client "delete_bucket" {[ "Bucket" := VStr container_name ]} = Return response →
  http_status response = Some (VInt 200) →
  delete_container self container_name region w
  = (Return (Raw response),
     add_event (ClientCall "delete_bucket" {[ "Bucket" := VStr container_name ]}) w1).
Proof.
  intros Hclient Hanswer Hstatus. unfold delete_container.
  erewrite forward_run; [ | exact Hclient | apply bucket_keywords ].
  rewrite Hanswer. simpl.
  by rewrite (translate_if_status_other 204 response (VInt 200)).
Qed.

(** C6 (as amended).  When the backend answers create_container's
    request with an envelope whose status is 200, the method returns
    what Container._translate_response makes of the response, not the
    raw response.  The container name goes to the backend only: the
    value returned is the same whatever name was asked for. *)
Theorem create_container_translates_response
    self container_name region kwargs w s3_client w1 response status :
  get_boto3_client self region w = (Return s3_client, w1) →
  answers s3_client response →
  no_clash kwargs →
  http_status response = Some status →
  Py.eq_int status 200 = true →
  (create_container self container_name region kwargs w).1
  = (container ← _translate_response response; Return (Translated container))
  ∧ ∀ other_name,
      (create_container self other_name region kwargs w).1
      = (create_container self container_name region kwargs w).1.
Proof.
  intros Hclient Hanswers Hfree Hstatus Hcode.
  assert (Hrun : ∀ name, (create_container self name region kwargs w).1
                         = translate_if_status 200 response).
  { intros name. apply (call_method_run Create _ name VNone _ _ _ _ _ _ Hclient Hanswers Hfree). }
  split.
  - rewrite Hrun. by apply translate_if_status_match with status.
  - intros other_name. by rewrite !Hrun.
Qed.

(** *** Credentials *)

(** C3.  With empty strings for both keys, [_set_ak_sk_keys] logs the
    error and returns [None]; [get_boto3_client] then fails on
    unpacking that [None] into [ak, sk]: a [TypeError], and no client is
    built. *)
Theorem empty_keys_fail_on_unpacking_none self region w endpoint :
  get_container_endpoint self region = Return endpoint →
  get_ak_sk self = Some (Return (VTuple [VStr ""; VStr ""])) →
  _set_ak_sk_keys self w
  = (Return VNone, add_event (LogError "Cannot obtain AK/SK from config") w)
  ∧ get_boto3_client self region w
    = (Raise TypeError, add_event (LogError "Cannot obtain AK/SK from config") w).
Proof.
  intros Hendpoint Hkeys.
  assert (Hset : _set_ak_sk_keys self w
                 = (Return VNone, add_event (LogError "Cannot obtain AK/SK from config") w)).
  { unfold _set_ak_sk_keys. by rewrite Hkeys. }
  split; [exact Hset|].
  unfold get_boto3_client. rewrite Hendpoint.
  unfold mbind at 1, M_bind, lift.
  by rewrite (bind_return _ _ _ _ _ Hset).
Qed.

(** Building the client touches no file. *)
Lemma get_boto3_client_files self region w :
  open_files (get_boto3_client self region w).2 = open_files w
  ∧ files (get_boto3_client self region w).2 = files w.
Proof.
  unfold get_boto3_client, _set_ak_sk_keys, lift, record, add_event,
    mbind, M_bind, mret, M_ret.
  repeat case_match; simplify_eq/=; done.
Qed.

(** The with-block of download_object, run: what leaves it, the
    request made, the open files and the destination's content. *)
Lemma download_block_run s3_client container_name key file_name w data fin :
  open_error file_name = None →
  download_fileobj s3_client container_name key = (data, fin) →
  let after :=
    with_open_wb open_error close_error file_name
      (λ f, download_into s3_client container_name key f) w in
  after.1 = match close_error file_name data with
            | Some (e, _) => Raise e
            | None => fin
            end
  ∧ trace after.2
    = trace w ++ [DownloadFileobj container_name key (fresh (dom (open_files w)))]
  ∧ open_files after.2 = open_files w
  ∧ files after.2 !! file_name
    = Some (match close_error file_name data with
            | Some (_, reached) => reached
            | None => data
            end).
Proof.
  intros Hwritable Htransfer after. subst after.
  assert (Hfresh : open_files w !! fresh (dom (open_files w)) = None).
  { apply not_elem_of_dom, is_fresh. }
  unfold with_open_wb, open_wb, exit_closing, download_into, write, record, add_event,
    lift, close, mbind, M_bind, mret, M_ret.
  rewrite Hwritable, Htransfer. simpl.
  repeat (rewrite !lookup_insert_eq; simpl).
  change (EmptyString +:+ data) with data.
  destruct fin as [answer|e], (close_error file_name data) as [[close_e reached]|]; simpl;
    rewrite ?lookup_insert_eq, delete_insert_id by done; done.
Qed.

(** *** Objects *)

(** C4 (as amended).  download_object leaves no file object open: the
    files open after the call are those open before it, however the
    call ends.  When the transfer raises after writing part of the
    data, the destination is closed and an exception leaves
    download_object: the one the client raised when the close
    succeeds, the partial data staying in the destination, and the
    error of the close when the close fails, the destination keeping
    what reached it. *)
Theorem download_object_closes_destination
    self file_name container_name region key w :
  open_files (download_object self file_name container_name region key w).2
  = open_files w
  ∧ ∀ s3_client w1 data e,
      get_boto3_client self region w = (Return s3_client, w1) →
      open_error file_name = None →
      download_fileobj s3_client container_name (opt_str key) = (data, Raise e) →
      (download_object self file_name container_name region key w).1
      = Raise (match close_error file_name data with
               | Some (close_e, _) => close_e
               | None => e
               end)
      ∧ files (download_object self file_name container_name region key w).2 !! file_name
        = Some (match close_error file_name data with
                | Some (_, reached) => reached
                | None => data
                end).
Proof.
  pose proof (get_boto3_client_files self region w) as [Hopen Hfiles].
  unfold download_object.
  destruct (get_boto3_client self region w) as [[s3_client'|e'] w1'] eqn:Hclient; simpl in *.
  - rewrite (bind_return _ _ _ _ _ Hclient).
    split.
    + unfold mbind at 1, M_bind at 1.
      destruct (open_error file_name) as [open_e|] eqn:Hwritable.
      * unfold with_open_wb, open_wb, mbind, M_bind. by rewrite Hwritable.
      * destruct (download_fileobj s3_client' container_name (opt_str key))
          as [data' fin'] eqn:Htransfer.
        destruct (download_block_run _ _ _ _ w1' _ _ Hwritable Htransfer)
          as (_ & _ & Hsame & _).
        destruct (with_open_wb _ _ _ _ w1') as [[answer|block_e] w2]; simpl in *; congruence.
    + intros s3_client w1 data e [= <- <-] Hwritable Htransfer.
      destruct (download_block_run _ _ _ _ w1' _ _ Hwritable Htransfer)
        as (Hresult & _ & _ & Hcontent).
      unfold mbind at 1 2, M_bind at 1 2.
      destruct (with_open_wb _ _ _ _ w1') as [[answer|block_e] w2]; simpl in *.
      * destruct (close_error file_name data) as [[close_e reached]|]; done.
      * split; [|done].
        destruct (close_error file_name data) as [[close_e reached]|]; congruence.
  - rewrite (bind_raise _ _ _ _ _ Hclient). split; [done|].
    intros ? ? ? ? [=].
Qed.

(** *** Strings *)

Lemma str_append_cons a s t : String a s +:+ t = String a (s +:+ t).
Proof. done. Qed.

Lemma str_append_assoc s t u : (s +:+ t) +:+ u = s +:+ (t +:+ u).
Proof. induction s as [|a s IH]; [done|]. by rewrite !str_append_cons, IH. Qed.

Lemma str_append_empty_r s : s +:+ "" = s.
Proof. induction s as [|a s IH]; [done|]. by rewrite str_append_cons, IH. Qed.

Lemma contains_append c s t :
  PyStr.contains c (s +:+ t) = PyStr.contains c s || PyStr.contains c t.
Proof.
  induction s as [|a s IH]; [done|].
  rewrite str_append_cons. simpl. rewrite IH. by destruct (Ascii.eqb a c).
Qed.

Lemma rfind_absent c s : PyStr.contains c s = false → PyStr.rfind c s = (-1)%Z.
Proof.
  induction s as [|a s IH]; [done|]. simpl.
  intros [Ha Hs]%orb_false_iff. by rewrite (IH Hs), Ha.
Qed.

Lemma rfind_join c dir leaf :
  PyStr.contains c leaf = false →
  PyStr.rfind c (dir +:+ String c leaf) = Z.of_nat (String.length dir).
Proof.
  intros Hleaf. induction dir as [|a dir IH].
  - change (PyStr.rfind c (String c leaf) = 0%Z). simpl.
    by rewrite (rfind_absent _ _ Hleaf), Ascii.eqb_refl.
  - rewrite str_append_cons. simpl PyStr.rfind. rewrite IH.
    destruct (0 <=? Z.of_nat (String.length dir))%Z eqn:Hle; [simpl; lia|].
    apply Z.leb_gt in Hle. lia.
Qed.

Lemma from_join dir a leaf :
  PyStr.from (S (String.length dir)) (dir +:+ String a leaf) = leaf.
Proof. induction dir as [|b dir IH]; [done|]. by rewrite str_append_cons. Qed.

(** [os.path.basename] returns what follows the last slash. *)
Lemma basename_join dir leaf :
  PyStr.contains "/" leaf = false →
  PyStr.basename (dir +:+ "/" +:+ leaf) = leaf.
Proof.
  intros Hleaf. unfold PyStr.basename.
  change ("/" +:+ leaf) with (String "/" leaf).
  rewrite (rfind_join _ _ _ Hleaf).
  replace (Z.to_nat (Z.of_nat (String.length dir) + 1)) with (S (String.length dir)) by lia.
  apply from_join.
Qed.

Lemma basename_plain p : PyStr.contains "/" p = false → PyStr.basename p = p.
Proof. intros Hp. unfold PyStr.basename. by rewrite (rfind_absent _ _ Hp). Qed.

(** *** Formatting *)

Lemma emit_emit s t st : PyFormat.emit t (PyFormat.emit s st) = PyFormat.emit (s +:+ t) st.
Proof. unfold PyFormat.emit. simpl. by rewrite str_append_assoc. Qed.

(** Text without a percent sign is copied. *)
Lemma format_run_text d s t st :
  PyStr.contains "%" s = false →
  PyFormat.format_run d (s +:+ t) PyFormat.Text st
  = PyFormat.format_run d t PyFormat.Text (PyFormat.emit s st).
Proof.
  revert st. induction s as [|a s IH]; intros st Hs.
  - unfold PyFormat.emit. rewrite str_append_empty_r. by destruct st.
  - simpl in Hs. apply orb_false_iff in Hs as [Ha Hs].
    rewrite str_append_cons. simpl. rewrite Ha, (IH _ Hs).
    by rewrite emit_emit.
Qed.

Lemma pyformat_plain s d : PyStr.contains "%" s = false → PyFormat.pyformat s d = Return s.
Proof.
  intros Hs. unfold PyFormat.pyformat.
  rewrite <- (str_append_empty_r s) at 1. by rewrite (format_run_text _ _ _ _ Hs).
Qed.

(** The placeholder the endpoints of the cloud are configured with. *)
Lemma pyformat_region_name a b region :
  PyStr.contains "%" a = false →
  PyStr.contains "%" b = false →
  PyFormat.pyformat (a +:+ "%(region_name)s" +:+ b) [("region_name", region)]
  = Return (a +:+ region +:+ b).
Proof.
  intros Ha Hb. unfold PyFormat.pyformat.
  rewrite (format_run_text _ _ _ _ Ha).
  cbv [String.append]. simpl.
  change ((fix append (s1 s2 : string) {struct s1} : string :=
             match s1 with
             | EmptyString => s2
             | String c s1' => String c (append s1' s2)
             end)) with String.append.
  rewrite <- (str_append_empty_r b) at 1.
  rewrite (format_run_text _ _ _ _ Hb). simpl.
  by rewrite str_append_assoc.
Qed.

(** *** The endpoint *)

Lemma lower_scheme_char c :
  Url.scheme_char c = true → Ascii.eqb (PyStr.lower c) "%" = false.
Proof. destruct c as [[] [] [] [] [] [] [] []]; vm_compute; congruence. Qed.

Lemma lower_scheme_chars s :
  PyStr.all Url.scheme_char s = true →
  PyStr.contains "%" (PyStr.map PyStr.lower s) = false.
Proof.
  induction s as [|a s IH]; [done|]. simpl.
  intros [Ha Hs]%andb_true_iff. by rewrite (lower_scheme_char _ Ha), (IH Hs).
Qed.

Lemma split_scheme_no_percent url :
  PyStr.contains "%" (Url.split_scheme url).1 = false.
Proof.
  unfold Url.split_scheme.
  destruct (PyStr.partition ":" url) as [[[|c0 before] after]|]; try done.
  destruct (_ && PyStr.all Url.scheme_char (String c0 before)) eqn:Hok; [|done].
  apply andb_true_iff in Hok as [_ Hall]. by apply (lower_scheme_chars (String c0 before)).
Qed.

(** The scheme [urlsplit] finds has no percent sign. *)
Lemma urlsplit_scheme_no_percent url split_url :
  urlsplit url = Return split_url →
  PyStr.contains "%" (Url.scheme split_url) = false.
Proof.
  unfold urlsplit, Url.urlsplit.
  pose proof (split_scheme_no_percent
    (PyStr.filter (λ c, negb (Url.unsafe_url_byte c))
       (PyStr.lstrip Url.c0_control_or_space url))) as Hscheme.
  destruct (Url.split_scheme _) as [sch rest]. simpl in Hscheme.
  repeat case_match; intros [= <-]; done.
Qed.

(** C9 (as amended).  get_container_endpoint formats the text
    scheme://netloc of the configured endpoint with the mapping
    [{'region_name': region}]: path, query and fragment play no part.
    When the network location has no percent sign, the result is
    exactly scheme://netloc, for every region. *)
Theorem get_container_endpoint_scheme_and_netloc self region split_url :
  urlsplit (get_endpoint self) = Return split_url →
  get_container_endpoint self region
  = PyFormat.pyformat (Url.scheme split_url +:+ "://" +:+ Url.netloc split_url)
                      [("region_name", region)]
  ∧ (PyStr.contains "%" (Url.netloc split_url) = false →
     ∀ any_region,
       get_container_endpoint self any_region
       = Return (Url.scheme split_url +:+ "://" +:+ Url.netloc split_url)).
Proof.
  intros Hsplit. unfold get_container_endpoint. rewrite Hsplit. split; [done|].
  intros Hnetloc any_region. simpl. apply pyformat_plain.
  rewrite !contains_append, Hnetloc, (urlsplit_scheme_no_percent _ _ Hsplit). done.
Qed.

(** X1.  An endpoint with the documented placeholder resolves to the
    host of the region: [https://obs.%(region_name)s.example.com/v1] gives
    [https://obs.eu-de.example.com] for region [eu-de]. *)
Theorem get_container_endpoint_substitutes_region self region split_url a b :
  urlsplit (get_endpoint self) = Return split_url →
  Url.netloc split_url = a +:+ "%(region_name)s" +:+ b →
  PyStr.contains "%" a = false →
  PyStr.contains "%" b = false →
  get_container_endpoint self region
  = Return (Url.scheme split_url +:+ "://" +:+ a +:+ region +:+ b).
Proof.
  intros Hsplit Hnetloc Ha Hb. unfold get_container_endpoint. rewrite Hsplit. simpl.
  rewrite Hnetloc.
  rewrite <- !(str_append_assoc _ _ ("%(region_name)s" +:+ b)).
  rewrite pyformat_region_name; [|
    by rewrite !contains_append, Ha, (urlsplit_scheme_no_percent _ _ Hsplit) | done].
  by rewrite !str_append_assoc.
Qed.

(** *** Endpoints written as scheme://authority/path *)

Lemma all_append p s t : PyStr.all p (s +:+ t) = PyStr.all p s && PyStr.all p t.
Proof.
  induction s as [|a s IH]; [done|].
  rewrite str_append_cons. simpl. rewrite IH. by destruct (p a).
Qed.

Lemma all_impl (p q : ascii → bool) s :
  (∀ c, p c = true → q c = true) → PyStr.all p s = true → PyStr.all q s = true.
Proof.
  intros Hpq. induction s as [|a s IH]; [done|]. simpl.
  intros [Ha Hs]%andb_true_iff. by rewrite (Hpq _ Ha), (IH Hs).
Qed.

Lemma filter_all p s : PyStr.all p s = true → PyStr.filter p s = s.
Proof.
  induction s as [|a s IH]; [done|]. simpl.
  intros [Ha Hs]%andb_true_iff. by rewrite Ha, (IH Hs).
Qed.

Lemma contains_none c (p : ascii → bool) s :
  p c = false → PyStr.all p s = true → PyStr.contains c s = false.
Proof.
  intros Hc. induction s as [|a s IH]; [done|]. simpl.
  intros [Ha Hs]%andb_true_iff. rewrite (IH Hs).
  destruct (Ascii.eqb_spec a c) as [->|]; [congruence|done].
Qed.

Lemma partition_first c s t :
  PyStr.contains c s = false → PyStr.partition c (s +:+ String c t) = Some (s, t).
Proof.
  induction s as [|a s IH].
  - intros _. change (PyStr.partition c (String c t) = Some (EmptyString, t)).
    simpl. by rewrite Ascii.eqb_refl.
  - simpl PyStr.contains. intros [Ha Hs]%orb_false_iff.
    rewrite str_append_cons. simpl PyStr.partition. by rewrite Ha, (IH Hs).
Qed.

Lemma splitnetloc_authority authority rest :
  PyStr.all (λ c, negb (Url.is_netloc_delim c)) authority = true →
  Url.starts_tail rest = true →
  Url.splitnetloc (authority +:+ rest) = (authority, rest).
Proof.
  intros Hauth Hrest. induction authority as [|a authority IH].
  - change (Url.splitnetloc rest = (EmptyString, rest)).
    destruct rest as [|c rest]; [done|]. simpl in *. by rewrite Hrest.
  - simpl in Hauth. apply andb_true_iff in Hauth as [Ha Hauth].
    rewrite str_append_cons. simpl.
    apply negb_true_iff in Ha. by rewrite Ha, (IH Hauth).
Qed.

Lemma authority_char_parts c :
  Url.authority_char c = true →
  PyStr.is_ascii c = true ∧ negb (Url.unsafe_url_byte c) = true
  ∧ negb (Url.is_netloc_delim c) = true ∧ negb (PyStr.contains c "[]") = true.
Proof.
  unfold Url.authority_char. rewrite !andb_true_iff. by intros [[[? ?] ?] ?].
Qed.

Lemma scheme_char_kept c :
  Url.scheme_char c = true →
  negb (Url.unsafe_url_byte c) = true ∧ negb (Ascii.eqb c ":") = true.
Proof. destruct c as [[] [] [] [] [] [] [] []]; vm_compute; by split. Qed.

Lemma letter_not_stripped c :
  PyStr.is_lower c || PyStr.is_upper c = true → Url.c0_control_or_space c = false.
Proof. destruct c as [[] [] [] [] [] [] [] []]; vm_compute; congruence. Qed.

(** The split of a well-formed URL: the lower-cased scheme and the
    authority, whatever follows. *)
Lemma urlsplit_well_formed sch authority rest :
  Url.well_formed sch authority rest = true →
  ∃ path query fragment,
    urlsplit (sch +:+ "://" +:+ authority +:+ rest)
    = Return {| Url.scheme := PyStr.map PyStr.lower sch; Url.netloc := authority;
                Url.path := path; Url.query := query; Url.fragment := fragment |}.
Proof using check_bracketed_netloc checknetloc_nfkc.
  unfold Url.well_formed.
  intros [[[[Hletter Hscheme]%andb_true_iff Hauth]%andb_true_iff
            Htail]%andb_true_iff Hrest]%andb_true_iff.
  assert (Hsafe : PyStr.all (λ c, negb (Url.unsafe_url_byte c))
                    (sch +:+ "://" +:+ authority +:+ rest) = true).
  { rewrite !all_append, Hrest.
    rewrite (all_impl _ _ _ (λ c H, proj1 (scheme_char_kept c H)) Hscheme).
    rewrite (all_impl Url.authority_char _ authority); [done| | done].
    intros c Hc. apply (authority_char_parts c Hc). }
  assert (Hcolon : PyStr.contains ":" sch = false).
  { apply contains_none with (λ c, negb (Ascii.eqb c ":")); [done|].
    exact (all_impl _ _ _ (λ c H, proj2 (scheme_char_kept c H)) Hscheme). }
  assert (Hdelims : PyStr.all (λ c, negb (Url.is_netloc_delim c)) authority = true).
  { apply (all_impl Url.authority_char); [|done].
    intros c Hc. apply (authority_char_parts c Hc). }
  assert (Hbrackets : ∀ b, PyStr.contains b "[]" = true → PyStr.contains b authority = false).
  { intros b Hb. apply contains_none with Url.authority_char; [|done].
    unfold Url.authority_char. rewrite Hb. simpl. by rewrite andb_false_r. }
  assert (Hascii : PyStr.all PyStr.is_ascii authority = true).
  { apply (all_impl Url.authority_char); [|done].
    intros c Hc. apply (authority_char_parts c Hc). }
  assert (Hstrip : PyStr.lstrip Url.c0_control_or_space (sch +:+ "://" +:+ authority +:+ rest)
                   = sch +:+ "://" +:+ authority +:+ rest).
  { destruct sch as [|c0 sch']; [done|].
    rewrite str_append_cons. simpl. by rewrite (letter_not_stripped _ Hletter). }
  unfold urlsplit, Url.urlsplit.
  rewrite Hstrip, (filter_all _ _ Hsafe).
  assert (Hsch : Url.split_scheme (sch +:+ "://" +:+ authority +:+ rest)
                 = (PyStr.map PyStr.lower sch, "//" +:+ authority +:+ rest)).
  { unfold Url.split_scheme.
    change (sch +:+ "://" +:+ authority +:+ rest)
      with (sch +:+ String ":" ("//" +:+ authority +:+ rest)).
    rewrite (partition_first _ _ _ Hcolon).
    destruct sch as [|c0 sch']; [done|]. by rewrite Hletter, Hscheme. }
  rewrite Hsch.
  change ("//" +:+ authority +:+ rest) with (String "/" (String "/" (authority +:+ rest))).
  cbv iota beta. rewrite (splitnetloc_authority _ _ Hdelims Htail).
  unfold Url.brackets_ok, Url.checknetloc.
  rewrite !Hbrackets by done. simpl negb. cbv iota.
  rewrite Hascii.
  destruct (PyStr.partition "#" rest) as [[before frag]|];
    [destruct (PyStr.partition "?" before) as [[p q]|]
    | destruct (PyStr.partition "?" rest) as [[p q]|]];
    destruct authority; simpl; by do 3 eexists.
Qed.

(** X5.  For a well-formed endpoint [scheme://authority] followed by a path,
    a query or a fragment, get_container_endpoint formats the
    lower-cased scheme and the authority, and nothing of what follows. *)
Theorem get_container_endpoint_drops_path sch authority rest keys region :
  Url.well_formed sch authority rest = true →
  get_container_endpoint
    {| get_endpoint := sch +:+ "://" +:+ authority +:+ rest; get_ak_sk := keys |} region
  = PyFormat.pyformat (PyStr.map PyStr.lower sch +:+ "://" +:+ authority)
                      [("region_name", region)].
Proof using check_bracketed_netloc checknetloc_nfkc.
  intros Hurl. destruct (urlsplit_well_formed _ _ _ Hurl) as (p & q & f & Hsplit).
  unfold get_container_endpoint. simpl get_endpoint. by rewrite Hsplit.
Qed.

(** *** Building the client *)

(** X2.  With an endpoint that resolves and two non-empty keys,
    get_boto3_client asks boto3 for a client of that endpoint with
    those keys and returns it. *)
Theorem get_boto3_client_builds_client self region w endpoint ak sk s3_client :
  get_container_endpoint self region = Return endpoint →
  get_ak_sk self = Some (Return (VTuple [ak; sk])) →
  Py.truthy ak = true →
  Py.truthy sk = true →
  boto3_client endpoint ak sk = Return s3_client →
  get_boto3_client self region w
  = (Return s3_client, add_event (NewClient endpoint ak sk) w).
Proof.
  intros Hendpoint Hkeys Hak Hsk Hboto.
  unfold get_boto3_client, _set_ak_sk_keys, lift, record, mbind, M_bind, mret, M_ret.
  rewrite Hendpoint, Hkeys. simpl. unfold Py.and_. rewrite Hak, Hsk. simpl.
  by rewrite Hboto.
Qed.

(** X3.  When the connection has no [get_ak_sk], [_set_ak_sk_keys] reads
    [ak] before anything was assigned to it: an [UnboundLocalError],
    with nothing logged. *)
Theorem missing_get_ak_sk_is_unbound_local self region w endpoint :
  get_container_endpoint self region = Return endpoint →
  get_ak_sk self = None →
  _set_ak_sk_keys self w = (Raise UnboundLocalError, w)
  ∧ get_boto3_client self region w = (Raise UnboundLocalError, w).
Proof.
  intros Hendpoint Hkeys.
  unfold get_boto3_client, _set_ak_sk_keys, lift, mbind, M_bind.
  by rewrite Hendpoint, Hkeys.
Qed.

(** *** Requests that reach the backend *)

Lemma keywords_insert1 k v (kwargs : gmap string pyval) :
  list_to_map [(k, v)] ∪ kwargs = <[k := v]> kwargs.
Proof. simpl. by rewrite <- insert_union_l, (left_id_L ∅ (∪)). Qed.

Lemma keywords_insert2 k1 v1 k2 v2 (kwargs : gmap string pyval) :
  list_to_map [(k1, v1); (k2, v2)] ∪ kwargs = <[k1 := v1]> (<[k2 := v2]> kwargs).
Proof. simpl. by rewrite <- !insert_union_l, (left_id_L ∅ (∪)). Qed.

Lemma keywords_insert3 k1 v1 k2 v2 k3 v3 (kwargs : gmap string pyval) :
  list_to_map [(k1, v1); (k2, v2); (k3, v3)] ∪ kwargs
  = <[k1 := v1]> (<[k2 := v2]> (<[k3 := v3]> kwargs)).
Proof. simpl. by rewrite <- !insert_union_l, (left_id_L ∅ (∪)). Qed.

(** C7.  upload_object called without a key forwards to the backend the
    key [os.path.basename(file_name)], which is the text after the last
    slash of the path (the whole path when it has none); a key given
    explicitly is forwarded unchanged. *)
Theorem upload_object_key_is_basename
    self container_name file_name region kwargs w s3_client w1 :
  get_boto3_client self region w = (Return s3_client, w1) →
  no_clash kwargs →
  let request key :=
    <["Fileobj" := VStr file_name]>
      (<["Bucket" := VStr container_name]> (<["Key" := VStr key]> kwargs)) in
  upload_object self container_name file_name region None kwargs w
  = (api s3_client "upload_file" (request (PyStr.basename file_name)),
     add_event (ClientCall "upload_file" (request (PyStr.basename file_name))) w1)
  ∧ (∀ key,
       upload_object self container_name file_name region (Some key) kwargs w
       = (api s3_client "upload_file" (request key),
          add_event (ClientCall "upload_file" (request key)) w1))
  ∧ (∀ dir leaf,
       file_name = dir +:+ "/" +:+ leaf → PyStr.contains "/" leaf = false →
       PyStr.basename file_name = leaf)
  ∧ (PyStr.contains "/" file_name = false → PyStr.basename file_name = file_name).
Proof.
  intros Hclient Hfree request.
  assert (Hrun : ∀ key given,
            match given with None => PyStr.basename file_name | Some k => k end = key →
            upload_object self container_name file_name region given kwargs w
            = (api s3_client "upload_file" (request key),
               add_event (ClientCall "upload_file" (request key)) w1)).
  { intros key given <-. unfold upload_object, request.
    rewrite <- keywords_insert3.
    apply forward_raw_run; [exact Hclient | by apply keywords_no_clash]. }
  split; [by apply Hrun|]. split; [intros key; by apply Hrun|]. split.
  - intros dir leaf -> Hleaf. by apply basename_join.
  - apply basename_plain.
Qed.



(** *** Listing containers *)

Lemma yield_each_all buckets found :
  Forall2 (λ bucket container, _translate_container_response bucket = Return container)
          buckets found →
  yield_each buckets = (found, Return ()).
Proof.
  induction 1 as [|bucket container buckets found Hone _ IH]; [done|].
  simpl. by rewrite Hone, IH.
Qed.

(** C10.  When the listing has no [Buckets] entry, iterating
    containers(region) yields nothing and fails with a [TypeError] (the
    loop runs over [None]); it does not end as an empty sequence.  With
    a list under [Buckets], it yields one translated Container per
    bucket, in order.  Whenever it yields a Container at all, [Buckets]
    is present. *)
Theorem containers_requires_buckets self region query w s3_client w1 listing :
  get_boto3_client self region w = (Return s3_client, w1) →
  api s3_client "list_buckets" ∅ = Return (VDict listing) →
  (listing !! "Buckets" = None →
     (containers self region query w).1 = ([], Raise TypeError))
  ∧ (∀ buckets found,
       listing !! "Buckets" = Some (VList buckets) →
       Forall2 (λ bucket container, _translate_container_response bucket = Return container)
               buckets found →
       (containers self region query w).1 = (found, Return ()))
  ∧ (∀ container more fin,
       (containers self region query w).1 = (container :: more, fin) →
       is_Some (listing !! "Buckets")).
Proof.
  intros Hclient Hanswer.
  assert (Hrun : (containers self region query w).1
                 = match Py.iter (default VNone (listing !! "Buckets")) with
                   | Return buckets => yield_each buckets
                   | Raise e => ([], Raise e)
                   end).
  { unfold containers.
    rewrite (bind_return _ _ _ _ _ Hclient).
    unfold mbind at 1, M_bind.
    rewrite (client_call_run _ _ _ _ _ _ (keywords_none [])). simpl list_to_map.
    rewrite Hanswer. unfold lift, mbind, M_bind. simpl.
    by destruct (Py.iter _). }
  rewrite Hrun. split; [|split].
  - by intros ->.
  - intros buckets found -> Hall. simpl. by apply yield_each_all.
  - intros container more fin. destruct (listing !! "Buckets"); [eauto|]. simpl. done.
Qed.

(** X4.  objects and get_object hand the backend's answer back as it is,
    whatever its status; a keyword of [kwargs] that the method passes
    itself is a [TypeError] and nothing is sent. *)
Theorem object_methods_return_backend_answer
    self container_name key region kwargs w s3_client w1 :
  get_boto3_client self region w = (Return s3_client, w1) →
  (no_clash kwargs →
     objects self container_name region kwargs w
     = (api s3_client "list_objects" (<["Bucket" := VStr container_name]> kwargs),
        add_event (ClientCall "list_objects" (<["Bucket" := VStr container_name]> kwargs)) w1)
     ∧ get_object self container_name key region kwargs w
       = (api s3_client "get_object"
            (<["Bucket" := VStr container_name]> (<["Key" := VStr key]> kwargs)),
          add_event (ClientCall "get_object"
            (<["Bucket" := VStr container_name]> (<["Key" := VStr key]> kwargs))) w1))
  ∧ (is_Some (kwargs !! "Bucket") →
     objects self container_name region kwargs w = (Raise TypeError, w1)
     ∧ get_object self container_name key region kwargs w = (Raise TypeError, w1)).
Proof.
  intros Hclient. split.
  - intros Hfree. rewrite <- keywords_insert1, <- keywords_insert2.
    split; [unfold objects | unfold get_object];
      (apply forward_raw_run; [exact Hclient | by apply keywords_no_clash]).
  - intros Hclash.
    assert (Hbad : ∀ rest, Py.keywords (("Bucket", VStr container_name) :: rest) kwargs
                           = Raise TypeError).
    { intros rest. unfold Py.keywords. simpl. by rewrite (bool_decide_eq_true_2 _ Hclash). }
    split; [unfold objects | unfold get_object];
      rewrite (bind_return _ _ _ _ _ Hclient);
      unfold client_call, lift, mbind, M_bind; by rewrite Hbad.
Qed.

(** *** Keyword arguments of the object methods *)

Lemma keywords_clash fixed (kwargs : gmap string pyval) :
  Exists (λ kv : string * pyval, is_Some (kwargs !! kv.1)) fixed →
  Py.keywords fixed kwargs = Raise TypeError.
Proof.
  intros Hclash. unfold Py.keywords.
  replace (forallb _ fixed) with false; [done|].
  symmetry. apply not_true_iff_false. rewrite forallb_forall.
  intros Hall. apply Exists_exists in Hclash as (kv & Hkv & Hsome).
  apply list_elem_of_In, Hall in Hkv.
  by rewrite (bool_decide_eq_true_2 _ Hsome) in Hkv.
Qed.

Lemma forward_raw_clash self region method fixed kwargs w s3_client w1 :
  get_boto3_client self region w = (Return s3_client, w1) →
  Py.keywords fixed kwargs = Raise TypeError →
  (client ← get_boto3_client self region;
   client_call client method fixed kwargs) w
  = (Raise TypeError, w1).
Proof.
  intros Hclient Hkw. rewrite (bind_return _ _ _ _ _ Hclient).
  unfold client_call, lift, mbind, M_bind. by rewrite Hkw.
Qed.

(** X6.  copy_object sends [Bucket], [CopySource] and [Key] with the
    caller's keyword arguments.  An [acl] that is truthy is sent as
    [ACL] and replaces an [ACL] among the keyword arguments; a falsy
    one ([None], the empty string) leaves the keyword arguments as
    they are. *)
Theorem copy_object_acl_replaces_keyword
    self container_name copy_source key region acl kwargs w s3_client w1 :
  get_boto3_client self region w = (Return s3_client, w1) →
  kwargs !! "Bucket" = None →
  kwargs !! "CopySource" = None →
  kwargs !! "Key" = None →
  ∃ kw,
    copy_object self container_name copy_source key region acl kwargs w
    = (api s3_client "copy_object" kw, add_event (ClientCall "copy_object" kw) w1)
    ∧ kw !! "Bucket" = Some (VStr container_name)
    ∧ kw !! "CopySource" = Some copy_source
    ∧ kw !! "Key" = Some (VStr key)
    ∧ kw !! "ACL" = (if Py.truthy acl then Some acl else kwargs !! "ACL")
    ∧ ∀ k, k ∉ ["Bucket"; "CopySource"; "Key"; "ACL"] → kw !! k = kwargs !! k.
Proof.
  intros Hclient HB HC HK.
  set (kwargs' := if Py.truthy acl then <["ACL" := acl]> kwargs else kwargs).
  assert (Hother : ∀ k, k ≠ "ACL" → kwargs' !! k = kwargs !! k).
  { intros k Hk. unfold kwargs'. destruct (Py.truthy acl); [|done].
    by rewrite lookup_insert_ne. }
  exists (<["Bucket" := VStr container_name]>
            (<["CopySource" := copy_source]> (<["Key" := VStr key]> kwargs'))).
  split.
  - unfold copy_object. fold kwargs'. rewrite <- keywords_insert3.
    apply forward_raw_run; [exact Hclient|].
    apply keywords_fresh. repeat constructor; simpl; by rewrite Hother.
  - repeat split.
    + by rewrite lookup_insert_eq.
    + rewrite !lookup_insert_ne by done. by rewrite lookup_insert_eq.
    + rewrite !lookup_insert_ne by done. by rewrite lookup_insert_eq.
    + rewrite !lookup_insert_ne by done. unfold kwargs'.
      destruct (Py.truthy acl); [by rewrite lookup_insert_eq | done].
    + intros k Hk. rewrite !not_elem_of_cons in Hk. destruct Hk as (? & ? & ? & ? & _).
      rewrite !lookup_insert_ne by done. by apply Hother.
Qed.

(** X7.  upload_part_copy sends [Bucket], [CopySource], [PartNumber],
    [UploadId] and [Key] with the caller's keyword arguments; when the
    keyword arguments repeat one of the five, the call is a
    [TypeError] and no request is made. *)
Theorem upload_part_copy_keywords
    self container_name copy_source key part_number upload_id region kwargs
    w s3_client w1 :
  get_boto3_client self region w = (Return s3_client, w1) →
  let own := ["Bucket"; "CopySource"; "PartNumber"; "UploadId"; "Key"] in
  let result :=
    upload_part_copy self container_name copy_source key part_number upload_id
                     region kwargs w in
  (Forall (λ k, kwargs !! k = None) own →
   ∃ kw,
     result = (api s3_client "upload_part_copy" kw,
               add_event (ClientCall "upload_part_copy" kw) w1)
     ∧ kw !! "Bucket" = Some (VStr container_name)
     ∧ kw !! "CopySource" = Some copy_source
     ∧ kw !! "PartNumber" = Some part_number
     ∧ kw !! "UploadId" = Some upload_id
     ∧ kw !! "Key" = Some (VStr key)
     ∧ ∀ k, k ∉ own → kw !! k = kwargs !! k)
  ∧ (Exists (λ k, is_Some (kwargs !! k)) own → result = (Raise TypeError, w1)).
Proof.
  intros Hclient own result. subst own result. unfold upload_part_copy. split.
  - intros Hfree.
    eexists. split.
    + apply forward_raw_run; [exact Hclient|].
      apply keywords_fresh.
      rewrite !Forall_cons in Hfree. destruct Hfree as (? & ? & ? & ? & ? & _).
      by repeat constructor.
    + simpl list_to_map.
      repeat split;
        try (apply lookup_union_Some_l; rewrite ?lookup_insert_ne by done;
             by rewrite lookup_insert_eq).
      intros k Hk. rewrite !not_elem_of_cons in Hk.
      destruct Hk as (? & ? & ? & ? & ? & _).
      rewrite lookup_union_r; [done|]. rewrite !lookup_insert_ne by done. apply lookup_empty.
  - intros Hclash. apply (forward_raw_clash _ _ _ _ _ _ _ _ Hclient).
    apply keywords_clash.
    rewrite !Exists_cons, Exists_nil in Hclash. rewrite !Exists_cons. simpl.
    destruct Hclash as [?|[?|[?|[?|[?|[]]]]]]; auto 10.
Qed.

(** X8.  delete_object takes keyword arguments and sends none of them:
    the request carries [Bucket] and [Key] only, whatever the caller
    passed, a second [Bucket] included (which is no [TypeError] here). *)
Theorem delete_object_drops_kwargs
    self container_name key region kwargs w s3_client w1 :
  get_boto3_client self region w = (Return s3_client, w1) →
  ∃ kw,
    delete_object self container_name key region kwargs w
    = (api s3_client "delete_object" kw, add_event (ClientCall "delete_object" kw) w1)
    ∧ kw !! "Bucket" = Some (VStr container_name)
    ∧ kw !! "Key" = Some (VStr key)
    ∧ ∀ k, k ∉ ["Bucket"; "Key"] → kw !! k = None.
Proof.
  intros Hclient.
  exists (<["Bucket" := VStr container_name]> (<["Key" := VStr key]> ∅)).
  split; [exact (delete_object_run _ _ _ _ kwargs _ _ _ Hclient)|].
  split_and!.
  - by rewrite lookup_insert_eq.
  - rewrite lookup_insert_ne by done. by rewrite lookup_insert_eq.
  - intros k Hk. rewrite !not_elem_of_cons in Hk. destruct Hk as (? & ? & _).
    rewrite !lookup_insert_ne by done. apply lookup_empty.
Qed.

(** X9.  When either key that get_ak_sk returns is falsy ([None], the
    empty string), the error is logged and get_boto3_client fails with
    a [TypeError] on unpacking; boto3 is not asked for a client. *)
Theorem falsy_key_builds_no_client self region w endpoint ak sk :
  get_container_endpoint self region = Return endpoint →
  get_ak_sk self = Some (Return (VTuple [ak; sk])) →
  Py.truthy ak = false ∨ Py.truthy sk = false →
  get_boto3_client self region w
  = (Raise TypeError, add_event (LogError "Cannot obtain AK/SK from config") w).
Proof.
  intros Hendpoint Hkeys Hfalsy.
  assert (Hand : Py.truthy (Py.and_ ak sk) = false).
  { unfold Py.and_. destruct (Py.truthy ak) eqn:Hak; [|done]. by destruct Hfalsy. }
  unfold get_boto3_client, _set_ak_sk_keys, lift, record, mbind, M_bind, mret, M_ret.
  rewrite Hendpoint, Hkeys. simpl. by rewrite Hand.
Qed.

(** *** When no client is built *)

Lemma get_boto3_client_failure self region w e w' :
  get_boto3_client self region w = (Raise e, w') →
  w' = w ∨ w' = add_event (LogError "Cannot obtain AK/SK from config") w.
Proof.
  unfold get_boto3_client, _set_ak_sk_keys, lift, record, mbind, M_bind, mret, M_ret.
  repeat case_match; intros [= <- <-]; simplify_eq; auto.
Qed.

(** X10.  When get_boto3_client fails, every method of the proxy fails
    with the same exception and in the same world: no request reaches
    a backend, no file is opened or written, and the only trace the
    call can leave is the logged credentials error. *)
Theorem failed_client_stops_every_method
    m self container_name file_name key given_key copy_source part_number upload_id
    acl policy region kwargs query w e w' :
  get_boto3_client self region w = (Raise e, w') →
  (w' = w ∨ w' = add_event (LogError "Cannot obtain AK/SK from config") w)
  ∧ call_method m self container_name policy region kwargs w = (Raise e, w')
  ∧ containers self region query w = (([], Raise e), w')
  ∧ objects self container_name region kwargs w = (Raise e, w')
  ∧ upload_object self container_name file_name region given_key kwargs w = (Raise e, w')
  ∧ download_object self file_name container_name region given_key w = (Raise e, w')
  ∧ copy_object self container_name copy_source key region acl kwargs w = (Raise e, w')
  ∧ upload_part_copy self container_name copy_source key part_number upload_id
                     region kwargs w = (Raise e, w')
  ∧ get_object self container_name key region kwargs w = (Raise e, w')
  ∧ delete_object self container_name key region kwargs w = (Raise e, w').
Proof.
  intros Hclient. split; [by apply get_boto3_client_failure with self region e|].
  split_and!.
  - destruct m; simpl; by apply bind_raise.
  - unfold containers. by rewrite (bind_raise _ _ _ _ _ Hclient).
  - by apply bind_raise.
  - by apply bind_raise.
  - by apply bind_raise.
  - by apply bind_raise.
  - by apply bind_raise.
  - by apply bind_raise.
  - by apply bind_raise.
Qed.

(** *** Downloads *)

(** X11.  When the client has written the data and returned, what
    download_object does next depends on the close of the destination
    alone.  If the close succeeds, download_object returns [None], not
    the client's answer, and the destination holds exactly the data
    the client wrote, whatever it held before.  If the close fails,
    its error leaves download_object and the destination keeps what
    reached it.  Either way no file object stays open, and the one
    request made names the container, the key and a descriptor that
    was not open before. *)
Theorem download_object_replaces_destination
    self file_name container_name region key w s3_client w1 data answer :
  get_boto3_client self region w = (Return s3_client, w1) →
  open_error file_name = None →
  download_fileobj s3_client container_name (opt_str key) = (data, Return answer) →
  let after := download_object self file_name container_name region key w in
  (close_error file_name data = None →
   after.1 = Return VNone ∧ files after.2 !! file_name = Some data)
  ∧ (∀ e reached, close_error file_name data = Some (e, reached) →
     after.1 = Raise e ∧ files after.2 !! file_name = Some reached)
  ∧ open_files after.2 = open_files w
  ∧ ∃ fd, open_files w !! fd = None
          ∧ trace after.2 = trace w1 ++ [DownloadFileobj container_name (opt_str key) fd].
Proof.
  intros Hclient Hwritable Htransfer after. subst after.
  pose proof (get_boto3_client_files self region w) as [Hopen Hfiles].
  rewrite Hclient in Hopen, Hfiles. simpl in Hopen, Hfiles.
  assert (Hfresh : open_files w1 !! fresh (dom (open_files w1)) = None).
  { apply not_elem_of_dom, is_fresh. }
  destruct (download_block_run _ _ _ _ w1 _ _ Hwritable Htransfer)
    as (Hresult & Htrace & Hsame & Hcontent).
  unfold download_object. rewrite (bind_return _ _ _ _ _ Hclient).
  unfold mbind, M_bind.
  destruct (with_open_wb _ _ _ _ w1) as [[block_answer|block_e] w2]; simpl in *.
  - split_and!.
    + intros Hflush. rewrite Hflush in Hcontent. done.
    + intros e reached Hfull. by rewrite Hfull in Hresult.
    + congruence.
    + exists (fresh (dom (open_files w1))). by rewrite <- Hopen.
  - split_and!.
    + intros Hflush. by rewrite Hflush in Hresult.
    + intros e reached Hfull. rewrite Hfull in Hresult, Hcontent.
      split; congruence.
    + congruence.
    + exists (fresh (dom (open_files w1))). by rewrite <- Hopen.
Qed.

(** X12.  When the destination cannot be opened for writing,
    download_object fails with the error of [open] right after the
    client was built: the backend gets no download request and no file
    is touched. *)
Theorem download_object_unwritable_destination
    self file_name container_name region key w s3_client w1 e :
  get_boto3_client self region w = (Return s3_client, w1) →
  open_error file_name = Some e →
  download_object self file_name container_name region key w = (Raise e, w1).
Proof.
  intros Hclient Hrefused.
  unfold download_object. rewrite (bind_return _ _ _ _ _ Hclient).
  unfold with_open_wb, open_wb, mbind, M_bind. by rewrite Hrefused.
Qed.

(** *** Listing stops at the first bucket that does not translate *)

Lemma yield_each_prefix good found bad e rest :
  Forall2 (λ bucket container, _translate_container_response bucket = Return container)
          good found →
  _translate_container_response bad = Raise e →
  yield_each (good ++ bad :: rest) = (found, Raise e).
Proof.
  intros Hgood Hbad. induction Hgood as [|bucket container good found Hone _ IH].
  - simpl. by rewrite Hbad.
  - simpl. by rewrite Hone, IH.
Qed.

(** X13.  When the translation of a bucket raises, iterating
    containers(region) has yielded the Containers of the buckets
    before it, in order, and then fails with that exception; the
    buckets after it are not looked at.  The query is not used. *)
Theorem containers_stops_at_failed_translation
    self region query w s3_client w1 listing good found bad e rest :
  get_boto3_client self region w = (Return s3_client, w1) →
  api s3_client "list_buckets" ∅ = Return (VDict listing) →
  listing !! "Buckets" = Some (VList (good ++ bad :: rest)) →
  Forall2 (λ bucket container, _translate_container_response bucket = Return container)
          good found →
  _translate_container_response bad = Raise e →
  containers self region query w
  = ((found, Raise e), add_event (ClientCall "list_buckets" ∅) w1).
Proof.
  intros Hclient Hanswer Hbuckets Hgood Hbad.
  unfold containers.
  rewrite (bind_return _ _ _ _ _ Hclient).
  unfold mbind at 1, M_bind.
  rewrite (client_call_run _ _ _ _ _ _ (keywords_none [])). simpl list_to_map.
  rewrite Hanswer. unfold lift, mbind, M_bind. simpl. rewrite Hbuckets. simpl.
  by rewrite (yield_each_prefix _ _ _ _ _ Hgood Hbad).
Qed.

(** *** One client and one request per call *)

Lemma build_client_run self region w endpoint ak sk s3_client :
  get_container_endpoint self region = Return endpoint →
  get_ak_sk self = Some (Return (VTuple [ak; sk])) →
  Py.truthy ak = true →
  Py.truthy sk = true →
  boto3_client endpoint ak sk = Return s3_client →
  get_boto3_client self region w
  = (Return s3_client, add_event (NewClient endpoint ak sk) w).
Proof.
  intros Hendpoint Hkeys Hak Hsk Hboto.
  unfold get_boto3_client, _set_ak_sk_keys, lift, record, mbind, M_bind, mret, M_ret.
  rewrite Hendpoint, Hkeys. simpl. unfold Py.and_. rewrite Hak, Hsk. simpl.
  by rewrite Hboto.
Qed.

(** X14.  Nothing is kept between calls: two calls of objects in a row
    ask boto3 for a client twice, each before its own request. *)
Theorem every_call_builds_its_client
    self first second region w endpoint ak sk s3_client answer :
  get_container_endpoint self region = Return endpoint →
  get_ak_sk self = Some (Return (VTuple [ak; sk])) →
  Py.truthy ak = true →
  Py.truthy sk = true →
  boto3_client endpoint ak sk = Return s3_client →
  api s3_client "list_objects" {[ "Bucket" := VStr first ]} = Return answer →
  trace ((objects self first region ∅ ≫= λ _, objects self second region ∅) w).2
  = trace w ++ [NewClient endpoint ak sk;
                ClientCall "list_objects" {[ "Bucket" := VStr first ]};
                NewClient endpoint ak sk;
                ClientCall "list_objects" {[ "Bucket" := VStr second ]}].
Proof.
  intros Hendpoint Hkeys Hak Hsk Hboto Hanswer.
  assert (Hrun : ∀ name w0,
            objects self name region ∅ w0
            = (api s3_client "list_objects" {[ "Bucket" := VStr name ]},
               add_event (ClientCall "list_objects" {[ "Bucket" := VStr name ]})
                 (add_event (NewClient endpoint ak sk) w0))).
  { intros name w0. unfold objects.
    apply forward_raw_run; [by apply build_client_run | apply bucket_keywords]. }
  unfold mbind at 1, M_bind. rewrite Hrun, Hanswer, Hrun. simpl.
  by rewrite <- !app_assoc.
Qed.

Lemma call_method_request m self container_name policy region kwargs w s3_client w1 :
  get_boto3_client self region w = (Return s3_client, w1) →
  no_clash kwargs →
  ∃ method kw,
    kw !! "Bucket" = Some (VStr container_name)
    ∧ call_method m self container_name policy region kwargs w
      = (api s3_client method kw ≫= translate_if_status (declared_status m),
         add_event (ClientCall method kw) w1).
Proof.
  intros Hclient Hfree.
  destruct m; simpl; eexists _, _;
    (split; [| apply forward_run;
                 [ exact Hclient
                 | first [ apply keywords_none | by apply keywords_no_clash ] ] ]);
    simpl list_to_map;
    first [ apply lookup_insert_eq
          | apply lookup_union_Some_l, lookup_insert_eq ].
Qed.

(** X15.  Each container method makes exactly one request, with
    [Bucket] set to the container name, and catches nothing: an
    exception raised by the backend leaves the method as it is, after
    the request; a response goes through the status check. *)
Theorem container_method_makes_one_request
    m self container_name policy region kwargs w s3_client w1 :
  get_boto3_client self region w = (Return s3_client, w1) →
  no_clash kwargs →
  ∃ method kw,
    kw !! "Bucket" = Some (VStr container_name)
    ∧ (∀ e, api s3_client method kw = Raise e →
            call_method m self container_name policy region kwargs w
            = (Raise e, add_event (ClientCall method kw) w1))
    ∧ (∀ response, api s3_client method kw = Return response →
            call_method m self container_name policy region kwargs w
            = (translate_if_status (declared_status m) response,
               add_event (ClientCall method kw) w1)).
Proof.
  intros Hclient Hfree.
  destruct (call_method_request m self container_name policy region kwargs w
              s3_client w1 Hclient Hfree) as (method & kw & Hbucket & Hrun).
  exists method, kw. split; [done|]. split.
  - intros e He. by rewrite Hrun, He.
  - intros response Hresponse. by rewrite Hrun, Hresponse.
Qed.

(** X16.  A response that is not a dictionary, or whose
    [ResponseMetadata] is truthy and not a dictionary, makes each
    container method fail with an [AttributeError]: the method calls
    [get] on it. *)
Theorem malformed_response_is_attribute_error
    m self container_name policy region kwargs w s3_client w1 response :
  get_boto3_client self region w = (Return s3_client, w1) →
  answers s3_client response →
  no_clash kwargs →
  (∀ r, response ≠ VDict r)
  ∨ (∃ r v, response = VDict r ∧ r !! "ResponseMetadata" = Some v
            ∧ Py.truthy v = true ∧ ∀ d, v ≠ VDict d) →
  (call_method m self container_name policy region kwargs w).1 = Raise AttributeError.
Proof.
  intros Hclient Hanswers Hfree Hshape.
  rewrite (call_method_run _ _ _ _ _ _ _ _ _ _ Hclient Hanswers Hfree).
  unfold translate_if_status.
  destruct Hshape as [Hnodict | (r & v & -> & Hmeta & Htruthy & Hnodict)].
  - destruct response; try done. by edestruct Hnodict.
  - simpl. rewrite Hmeta. simpl. rewrite Htruthy.
    destruct v; try done. by edestruct Hnodict.
Qed.

(** *** Endpoints that do not format *)

Lemma format_run_key d key acc rest st :
  PyStr.contains "(" key = false →
  PyStr.contains ")" key = false →
  PyFormat.format_run d (key +:+ String ")" rest) (PyFormat.Key 1 acc) st
  = match PyFormat.lookup_key (acc +:+ key) d with
    | Some v =>
        PyFormat.format_run d rest (PyFormat.Flags PyFormat.spec0)
          {| PyFormat.out := PyFormat.out st; PyFormat.arg := PyFormat.ArgValue v;
             PyFormat.avail := true |}
    | None => Raise KeyError
    end.
Proof.
  revert acc. induction key as [|c key IH]; intros acc Hopen Hclose.
  - rewrite str_append_empty_r.
    change (EmptyString +:+ String ")" rest) with (String ")" rest). simpl.
    by destruct (PyFormat.lookup_key acc d).
  - simpl in Hopen, Hclose.
    apply orb_false_iff in Hopen as [Hc1 Hopen].
    apply orb_false_iff in Hclose as [Hc2 Hclose].
    rewrite str_append_cons. simpl. rewrite Hc1, Hc2.
    rewrite (IH _ Hopen Hclose).
    by rewrite str_append_assoc.
Qed.

(** X17.  An endpoint whose network location names another key than
    [region_name] in its first placeholder, as in
    [obs.%(region)s.example.com], makes get_container_endpoint raise
    [KeyError], whatever the region. *)
Theorem get_container_endpoint_unknown_key self region split_url a key b :
  urlsplit (get_endpoint self) = Return split_url →
  Url.netloc split_url = a +:+ "%(" +:+ key +:+ ")" +:+ b →
  PyStr.contains "%" a = false →
  PyStr.contains "(" key = false →
  PyStr.contains ")" key = false →
  key ≠ "region_name" →
  get_container_endpoint self region = Raise KeyError.
Proof.
  intros Hsplit Hnetloc Ha Hopen Hclose Hkey.
  unfold get_container_endpoint. rewrite Hsplit. simpl. rewrite Hnetloc.
  unfold PyFormat.pyformat.
  rewrite <- !(str_append_assoc _ _ ("%(" +:+ key +:+ ")" +:+ b)).
  rewrite format_run_text
    by (by rewrite !contains_append, Ha, (urlsplit_scheme_no_percent _ _ Hsplit)).
  change ("%(" +:+ key +:+ ")" +:+ b) with (String "%" (String "(" (key +:+ String ")" b))).
  simpl. rewrite (format_run_key _ _ _ _ _ Hopen Hclose).
  change (EmptyString +:+ key) with key.
  assert (Hneq : String.eqb "region_name" key = false) by (by apply String.eqb_neq).
  cbn [PyFormat.lookup_key]. by rewrite Hneq.
Qed.

Lemma lstrip_none p s :
  PyStr.all (λ c, negb (p c)) s = true → PyStr.lstrip p s = s.
Proof.
  destruct s as [|a s]; [done|]. simpl.
  intros [Ha _]%andb_true_iff. apply negb_true_iff in Ha. by rewrite Ha.
Qed.

Lemma partition_absent c s : PyStr.contains c s = false → PyStr.partition c s = None.
Proof.
  induction s as [|a s IH]; [done|]. simpl.
  intros [Ha Hs]%orb_false_iff. by rewrite Ha, (IH Hs).
Qed.

Lemma unsafe_is_stripped c :
  negb (Url.c0_control_or_space c) = true → negb (Url.unsafe_url_byte c) = true.
Proof. destruct c as [[] [] [] [] [] [] [] []]; vm_compute; congruence. Qed.

Lemma no_authority_without_slashes url :
  (∀ rest, url ≠ "//" +:+ rest) →
  match url with
  | String "/" (String "/" rest) => Url.splitnetloc rest
  | _ => (EmptyString, url)
  end = (EmptyString, url).
Proof.
  intros Hslashes. destruct url as [|c1 [|c2 rest]]; [done | |].
  - destruct c1 as [[] [] [] [] [] [] [] []]; done.
  - destruct (Ascii.eqb_spec c1 "/") as [->|Hc1].
    + destruct (Ascii.eqb_spec c2 "/") as [->|Hc2]; [by destruct (Hslashes rest)|].
      destruct c2 as [[] [] [] [] [] [] [] []]; done.
    + destruct c1 as [[] [] [] [] [] [] [] []]; done.
Qed.

(** X18.  An endpoint configured without a scheme and without the two
    slashes, as in [obs.example.com/v1], has neither scheme nor network
    location for [urlsplit]: get_container_endpoint returns the text
    [://], for every region. *)
Theorem get_container_endpoint_without_scheme url keys region :
  PyStr.all (λ c, negb (Url.c0_control_or_space c)) url = true →
  PyStr.contains ":" url = false →
  (∀ rest, url ≠ "//" +:+ rest) →
  get_container_endpoint {| get_endpoint := url; get_ak_sk := keys |} region
  = Return "://".
Proof using check_bracketed_netloc checknetloc_nfkc.
  intros Hplain Hcolon Hslashes.
  unfold get_container_endpoint, urlsplit, Url.urlsplit. simpl get_endpoint.
  rewrite (lstrip_none _ _ Hplain).
  rewrite (filter_all _ _ (all_impl _ _ _ unsafe_is_stripped Hplain)).
  unfold Url.split_scheme. rewrite (partition_absent _ _ Hcolon).
  rewrite (no_authority_without_slashes _ Hslashes).
  unfold Url.brackets_ok, Url.checknetloc. simpl.
  destruct (PyStr.partition "#" url) as [[before frag]|];
    [destruct (PyStr.partition "?" before) as [[p q]|]
    | destruct (PyStr.partition "?" url) as [[p q]|]]; done.
Qed.

(** *** The location constraint of a new container *)

(** X19.  create_container sends the region twice: it picks the
    endpoint, and it is the [LocationConstraint] of the
    [CreateBucketConfiguration] of the request.  The caller cannot
    send a configuration of its own: one among the keyword arguments
    is a [TypeError], and no request is made. *)
Theorem create_container_location_is_region
    self container_name region kwargs w s3_client w1 :
  get_boto3_client self region w = (Return s3_client, w1) →
  kwargs !! "Bucket" = None →
  (kwargs !! "CreateBucketConfiguration" = None →
   ∃ kw,
     create_container self container_name region kwargs w
     = (api s3_client "create_bucket" kw ≫= translate_if_status 200,
        add_event (ClientCall "create_bucket" kw) w1)
     ∧ kw !! "Bucket" = Some (VStr container_name)
     ∧ kw !! "CreateBucketConfiguration"
       = Some (VDict {[ "LocationConstraint" := VStr region ]})
     ∧ ∀ k, k ∉ ["Bucket"; "CreateBucketConfiguration"] → kw !! k = kwargs !! k)
  ∧ (is_Some (kwargs !! "CreateBucketConfiguration") →
     create_container self container_name region kwargs w = (Raise TypeError, w1)).
Proof.
  intros Hclient Hbucket. split.
  - intros Hconfig.
    exists (<["Bucket" := VStr container_name]>
              (<["CreateBucketConfiguration" :=
                   VDict {[ "LocationConstraint" := VStr region ]}]> kwargs)).
    split; [|split_and!].
    + unfold create_container. rewrite <- keywords_insert2.
      apply forward_run; [exact Hclient|].
      apply keywords_fresh. by repeat constructor.
    + by rewrite lookup_insert_eq.
    + rewrite lookup_insert_ne by done. by rewrite lookup_insert_eq.
    + intros k Hk. rewrite !not_elem_of_cons in Hk. destruct Hk as (? & ? & _).
      by rewrite !lookup_insert_ne by done.
  - intros Hgiven. unfold create_container.
    rewrite (bind_return _ _ _ _ _ Hclient).
    unfold mbind at 1, M_bind, client_call, lift, mbind, M_bind.
    rewrite keywords_clash; [done|].
    apply Exists_cons_tl, Exists_cons_hd. exact Hgiven.
Qed.

End ProxyMethods.

(** ** The statements at sample values *)

Module Closed.
Import Sample.

Lemma no_clash_empty : no_clash ∅.
Proof. apply Forall_forall. intros k _. apply lookup_empty. Qed.

(** delete_container asked to delete a bucket when the backend says 200:
    the raw response; delete_object on the same backend: the raw
    response too. *)
Lemma container_methods_translate_only_declared_status_witness :
  (call_method translate (answering (response 200)) accept accept
     Delete proxy "bucket-a" VNone region ∅ world0).1
  = Return (Raw (response 200))
  ∧ (delete_object (answering (response 200)) accept accept
       proxy "bucket-a" "k" region ∅ world0).1
    = Return (response 200).
Proof.
  edestruct (container_methods_translate_only_declared_status
               translate (answering (response 200)) accept accept
               Delete proxy "bucket-a" "k" VNone region ∅ world0) as [Hstatus Hobject].
  - vm_compute. reflexivity.
  - intros method kw. reflexivity.
  - exact no_clash_empty.
  - split; [exact (Hstatus (VInt 200) eq_refl) | exact Hobject].
Defined.

(** The claim of C1 as stated fails at delete_object: when the backend
    answers 204, the success code of a deletion, delete_container
    returns the translated Container and delete_object returns the raw
    response; and so it does for every status. *)
Lemma delete_object_translates_no_status :
  (delete_container translate (answering (response 204)) accept accept
     proxy "bucket-a" region world0).1
  = Return (Translated (response 204))
  ∧ (delete_object (answering (response 204)) accept accept
       proxy "bucket-a" "k" region ∅ world0).1
    = Return (response 204)
  ∧ ∀ status,
      (delete_object (answering (response status)) accept accept
         proxy "bucket-a" "k" region ∅ world0).1
      = Return (response status).
Proof.
  split; [by vm_compute|]. split; [by vm_compute|].
  intros status.
  by rewrite (delete_object_run (answering (response status)) accept accept
                proxy "bucket-a" "k" region ∅ world0
                (client (response status) EmptyString (Return VNone)) world1).
Qed.

Lemma response_without_envelope_is_returned_witness :
  (call_method translate (answering bare_response) accept accept
     Create proxy "bucket-a" VNone region ∅ world0).1
  = Return (Raw bare_response).
Proof.
  eapply (response_without_envelope_is_returned
            translate (answering bare_response) accept accept
            Create proxy "bucket-a" VNone region ∅ world0).
  - vm_compute. reflexivity.
  - intros method kw. reflexivity.
  - exact no_clash_empty.
  - reflexivity.
Defined.

(** The claim of C2 as stated fails: for a response [{}], without any
    envelope, create_container raises nothing; the call returns, and
    what it returns is the response itself, just as it returns the
    response of an unexpected status. *)
Lemma create_container_without_envelope_returns :
  raised (create_container translate (answering bare_response) accept accept
            proxy "bucket-a" region ∅ world0).1 = None
  ∧ (create_container translate (answering bare_response) accept accept
       proxy "bucket-a" region ∅ world0).1
    = Return (Raw bare_response)
  ∧ (create_container translate (answering (response 500)) accept accept
       proxy "bucket-a" region ∅ world0).1
    = Return (Raw (response 500)).
Proof. repeat split; by vm_compute. Qed.

Lemma delete_container_status_200_returns_raw_response_witness :
  (delete_container translate (answering (response 200)) accept accept
     proxy "bucket-a" region world0).1
  = Return (Raw (response 200)).
Proof.
  erewrite (delete_container_status_200_returns_raw_response
              translate (answering (response 200)) accept accept
              proxy "bucket-a" region world0).
  - reflexivity.
  - vm_compute. reflexivity.
  - reflexivity.
  - reflexivity.
Defined.

Lemma create_container_translates_response_witness :
  (create_container translate (answering (response 200)) accept accept
     proxy "bucket-a" region ∅ world0).1
  = Return (Translated (response 200)).
Proof.
  eapply (proj1 (create_container_translates_response
                   translate (answering (response 200)) accept accept
                   proxy "bucket-a" region ∅ world0 _ _ (response 200) (VInt 200)
                   _ _ no_clash_empty eq_refl eq_refl)).
  Unshelve.
  - exact (client (response 200) EmptyString (Return VNone)).
  - exact world1.
  - by vm_compute.
  - intros method kw. reflexivity.
Defined.

(** The claim of C6 as stated fails on the name: with a backend that
    answers 200 with a metadata envelope, create_container returns the
    same value for the names bucket-a and bucket-b, whatever Container
    is and however the response is translated; no reading of a name off
    that value gives each call its own name. *)
Lemma create_container_result_ignores_name :
  (∀ (Container : Type) (_translate_response : pyval → outcome Container),
     (create_container _translate_response (answering (response 200)) accept accept
        proxy "bucket-a" region ∅ world0).1
     = (create_container _translate_response (answering (response 200)) accept accept
          proxy "bucket-b" region ∅ world0).1)
  ∧ (∀ (Container : Type) (_translate_response : pyval → outcome Container)
       (name : Container → string) a b,
       (create_container _translate_response (answering (response 200)) accept accept
          proxy "bucket-a" region ∅ world0).1 = Return (Translated a) →
       (create_container _translate_response (answering (response 200)) accept accept
          proxy "bucket-b" region ∅ world0).1 = Return (Translated b) →
       ¬ (name a = "bucket-a" ∧ name b = "bucket-b")).
Proof.
  assert (Hsame : ∀ (Container : Type) (tr : pyval → outcome Container) name,
            (create_container tr (answering (response 200)) accept accept
               proxy name region ∅ world0).1
            = translate_if_status tr 200 (response 200)).
  { intros Container tr name.
    apply (call_method_run tr (answering (response 200)) accept accept
             Create proxy name VNone region ∅ world0
             (client (response 200) EmptyString (Return VNone)) world1);
      [by vm_compute | by intros ? ? | exact no_clash_empty]. }
  split.
  - intros Container tr. by rewrite !Hsame.
  - intros Container tr name a b Ha Hb [Hna Hnb].
    rewrite Hsame in Ha, Hb. rewrite Ha in Hb. injection Hb as <-.
    by rewrite Hna in Hnb.
Qed.

Lemma empty_keys_fail_on_unpacking_none_witness :
  get_boto3_client (answering (response 200)) accept accept proxy_empty_keys region world0
  = (Raise TypeError, add_event (LogError "Cannot obtain AK/SK from config") world0).
Proof.
  apply (proj2 (empty_keys_fail_on_unpacking_none
                  (answering (response 200)) accept accept proxy_empty_keys region world0
                  "https://obs.eu-de.otc.t-systems.com" ltac:(by vm_compute) eq_refl)).
Defined.

(** A transfer that writes three bytes and then fails, on a device
    that flushes: the destination is closed, holds the three bytes, and
    the client's own exception leaves download_object. *)
Lemma download_object_closes_destination_witness :
  (download_object (failing_transfer "abc" (LibraryError "ClientError")) writable flushes
     accept accept proxy "/tmp/out" "bucket-a" region (Some "k") world0).1
  = Raise (LibraryError "ClientError")
  ∧ files (download_object (failing_transfer "abc" (LibraryError "ClientError")) writable
             flushes accept accept proxy "/tmp/out" "bucket-a" region (Some "k") world0).2
      !! "/tmp/out"
    = Some "abc".
Proof.
  apply (proj2 (download_object_closes_destination
                  (failing_transfer "abc" (LibraryError "ClientError")) writable flushes
                  accept accept proxy "/tmp/out" "bucket-a" region (Some "k") world0)
               (client VNone "abc" (Raise (LibraryError "ClientError"))) world1 "abc"
               (LibraryError "ClientError")).
  - by vm_compute.
  - reflexivity.
  - reflexivity.
Defined.

(** The claim of C4 as stated fails on the exception: when the transfer
    fails after a partial write, what leaves download_object is the
    exception the client raised, here a ClientError, not a
    TransferError; and on a full device, where the close fails too, it
    is the OSError of the close.  The destination is closed all the
    same. *)
Lemma download_object_raises_the_clients_exception :
  (download_object (failing_transfer "abc" (LibraryError "ClientError")) writable flushes
     accept accept proxy "/tmp/out" "bucket-a" region (Some "k") world0).1
  = Raise (LibraryError "ClientError")
  ∧ exn_class (LibraryError "ClientError") ≠ "TransferError"
  ∧ open_files (download_object (failing_transfer "abc" (LibraryError "ClientError")) writable
                  flushes accept accept proxy "/tmp/out" "bucket-a" region (Some "k")
                  world0).2
    = ∅
  ∧ download_object (failing_transfer "abc" (LibraryError "ClientError")) writable
      full_device accept accept proxy "/tmp/out" "bucket-a" region (Some "k") world0
    = (Raise OSError,
       {| trace := trace world1 ++ [DownloadFileobj "bucket-a" (VStr "k") 0];
          open_files := ∅;
          files := {[ "/tmp/out" := "" ]} |})
  ∧ exn_class OSError ≠ "TransferError".
Proof. split_and!; [by vm_compute | done | by vm_compute | by vm_compute | done]. Qed.

Lemma upload_object_key_is_basename_witness :
  PyStr.basename "/tmp/data/report.csv" = "report.csv"
  ∧ upload_object (answering (response 200)) accept accept
      proxy "bucket-a" "/tmp/data/report.csv" region None ∅ world0
    = (Return (response 200),
       add_event (ClientCall "upload_file"
                    (<["Fileobj" := VStr "/tmp/data/report.csv"]>
                       (<["Bucket" := VStr "bucket-a"]>
                          {[ "Key" := VStr "report.csv" ]})))
                 world1).
Proof.
  pose proof (upload_object_key_is_basename
                (answering (response 200)) accept accept
                proxy "bucket-a" "/tmp/data/report.csv" region ∅ world0
                (client (response 200) EmptyString (Return VNone)) world1
                ltac:(by vm_compute) no_clash_empty) as (Hnone & _ & Hleaf & _).
  split.
  - exact (Hleaf "/tmp/data" "report.csv" eq_refl eq_refl).
  - rewrite Hnone. by vm_compute.
Defined.



Lemma get_container_endpoint_scheme_and_netloc_witness :
  get_container_endpoint accept accept
    (proxy_at "https://obs.example.com/v1/AUTH_x?marker=a#top") region
  = Return "https://obs.example.com".
Proof.
  apply (proj2 (get_container_endpoint_scheme_and_netloc accept accept
                  (proxy_at "https://obs.example.com/v1/AUTH_x?marker=a#top") region
                  {| Url.scheme := "https"; Url.netloc := "obs.example.com";
                     Url.path := "/v1/AUTH_x"; Url.query := "marker=a";
                     Url.fragment := "top" |}
                  ltac:(by vm_compute))
               eq_refl region).
Defined.

(** The claim of C9 as stated fails.  The network location
    [obs%s.example.com] has no [%(region_name)s] in it, and the endpoint
    still depends on the region: [%s] is replaced by the text of the
    whole mapping.  With [%b] in the location the method raises and
    returns nothing; with [%%] it returns a single percent sign where
    the location has two. *)
Lemma endpoint_depends_on_region_without_placeholder :
  urlsplit accept accept "https://obs%s.example.com/v1"
  = Return {| Url.scheme := "https"; Url.netloc := "obs%s.example.com";
              Url.path := "/v1"; Url.query := ""; Url.fragment := "" |}
  ∧ String.index 0 "%(region_name)s" "obs%s.example.com" = None
  ∧ get_container_endpoint accept accept (proxy_at "https://obs%s.example.com/v1") "eu-de"
    = Return "https://obs{'region_name': 'eu-de'}.example.com"
  ∧ get_container_endpoint accept accept (proxy_at "https://obs%s.example.com/v1") "eu-nl"
    = Return "https://obs{'region_name': 'eu-nl'}.example.com"
  ∧ get_container_endpoint accept accept (proxy_at "https://a%b") "eu-de" = Raise ValueError
  ∧ get_container_endpoint accept accept (proxy_at "https://a%%b") "eu-de"
    = Return "https://a%b".
Proof. repeat split; by vm_compute. Qed.

(** The endpoint of the sample proxy, for two regions. *)
Lemma endpoint_of_sample_proxy :
  get_container_endpoint accept accept proxy "eu-de"
  = Return "https://obs.eu-de.otc.t-systems.com"
  ∧ get_container_endpoint accept accept proxy "eu-nl"
    = Return "https://obs.eu-nl.otc.t-systems.com".
Proof. split; by vm_compute. Qed.

Lemma containers_requires_buckets_witness :
  (containers translate (answering (response 200)) accept accept proxy region ∅ world0).1
  = ([], Raise TypeError)
  ∧ (containers translate (answering listing) accept accept proxy region ∅ world0).1
    = ([bucket "a"; bucket "b"], Return ()).
Proof.
  split.
  - eapply (proj1 (containers_requires_buckets
                     translate (answering (response 200)) accept accept
                     proxy region ∅ world0
                     (client (response 200) EmptyString (Return VNone)) world1 _
                     ltac:(by vm_compute) eq_refl)).
    reflexivity.
  - eapply (proj1 (proj2 (containers_requires_buckets
                     translate (answering listing) accept accept
                     proxy region ∅ world0
                     (client listing EmptyString (Return VNone)) world1 _
                     ltac:(by vm_compute) eq_refl))).
    + reflexivity.
    + by repeat constructor.
Defined.

Lemma get_container_endpoint_substitutes_region_witness :
  get_container_endpoint accept accept proxy "eu-nl"
  = Return "https://obs.eu-nl.otc.t-systems.com".
Proof.
  apply (get_container_endpoint_substitutes_region accept accept proxy "eu-nl"
           {| Url.scheme := "https"; Url.netloc := "obs.%(region_name)s.otc.t-systems.com";
              Url.path := "/v1"; Url.query := ""; Url.fragment := "" |}
           "obs." ".otc.t-systems.com" ltac:(by vm_compute) eq_refl eq_refl eq_refl).
Defined.

Lemma get_boto3_client_builds_client_witness :
  get_boto3_client (answering (response 200)) accept accept proxy region world0
  = (Return (client (response 200) EmptyString (Return VNone)), world1).
Proof.
  apply (get_boto3_client_builds_client (answering (response 200)) accept accept
           proxy region world0 "https://obs.eu-de.otc.t-systems.com"
           (VStr "AK") (VStr "SK") (client (response 200) EmptyString (Return VNone))
           ltac:(by vm_compute) eq_refl eq_refl eq_refl eq_refl).
Defined.

Lemma missing_get_ak_sk_is_unbound_local_witness :
  get_boto3_client (answering (response 200)) accept accept
    {| get_endpoint := "https://obs.example.com"; get_ak_sk := None |} region world0
  = (Raise UnboundLocalError, world0).
Proof.
  apply (proj2 (missing_get_ak_sk_is_unbound_local (answering (response 200)) accept accept
                  {| get_endpoint := "https://obs.example.com"; get_ak_sk := None |}
                  region world0 "https://obs.example.com" ltac:(by vm_compute) eq_refl)).
Defined.

Lemma object_methods_return_backend_answer_witness :
  objects (answering (response 404)) accept accept proxy "bucket-a" region ∅ world0
  = (Return (response 404),
     add_event (ClientCall "list_objects" {[ "Bucket" := VStr "bucket-a" ]}) world1)
  ∧ objects (answering (response 200)) accept accept proxy "bucket-a" region
      {[ "Bucket" := VStr "other" ]} world0
    = (Raise TypeError, world1).
Proof.
  split.
  - pose proof (proj1 (proj1 (object_methods_return_backend_answer
                  (answering (response 404)) accept accept
                  proxy "bucket-a" "k" region ∅ world0
                  (client (response 404) EmptyString (Return VNone)) world1
                  ltac:(by vm_compute)) no_clash_empty)) as Hobjects.
    rewrite Hobjects. by vm_compute.
  - apply (proj1 (proj2 (object_methods_return_backend_answer
                  (answering (response 200)) accept accept
                  proxy "bucket-a" "k" region {[ "Bucket" := VStr "other" ]} world0
                  (client (response 200) EmptyString (Return VNone)) world1
                  ltac:(by vm_compute)) ltac:(by eexists))).
Defined.

Lemma get_container_endpoint_drops_path_witness :
  get_container_endpoint accept accept
    (proxy_at "HTTPS://obs.example.com/v1/AUTH_x?marker=a#top") region
  = Return "https://obs.example.com".
Proof.
  exact (get_container_endpoint_drops_path accept accept
           "HTTPS" "obs.example.com" "/v1/AUTH_x?marker=a#top" (keys "AK" "SK") region
           eq_refl).
Defined.

Lemma copy_object_acl_replaces_keyword_witness :
  ∃ kw,
    copy_object (answering (response 200)) accept accept
      proxy "bucket-a" (VStr "source/key") "k" region (VStr "private")
      {[ "ACL" := VStr "public-read" ]} world0
    = (Return (response 200), add_event (ClientCall "copy_object" kw) world1)
    ∧ kw !! "ACL" = Some (VStr "private").
Proof.
  destruct (copy_object_acl_replaces_keyword
              (answering (response 200)) accept accept
              proxy "bucket-a" (VStr "source/key") "k" region (VStr "private")
              {[ "ACL" := VStr "public-read" ]} world0
              (client (response 200) EmptyString (Return VNone)) world1
              ltac:(by vm_compute) eq_refl eq_refl eq_refl)
    as (kw & Hrun & _ & _ & _ & Hacl & _).
  exists kw. split; [exact Hrun | exact Hacl].
Defined.

Lemma upload_part_copy_keywords_witness :
  upload_part_copy (answering (response 200)) accept accept
    proxy "bucket-a" (VStr "source/key") "k" (VInt 1) (VStr "upload-1") region
    {[ "PartNumber" := VInt 2 ]} world0
  = (Raise TypeError, world1).
Proof.
  apply (proj2 (upload_part_copy_keywords
                  (answering (response 200)) accept accept
                  proxy "bucket-a" (VStr "source/key") "k" (VInt 1) (VStr "upload-1") region
                  {[ "PartNumber" := VInt 2 ]} world0
                  (client (response 200) EmptyString (Return VNone)) world1
                  ltac:(by vm_compute))).
  apply Exists_cons_tl, Exists_cons_tl, Exists_cons_hd. by eexists.
Defined.

Lemma delete_object_drops_kwargs_witness :
  ∃ kw,
    delete_object (answering (response 204)) accept accept
      proxy "bucket-a" "k" region {[ "VersionId" := VStr "v1" ]} world0
    = (Return (response 204), add_event (ClientCall "delete_object" kw) world1)
    ∧ kw !! "VersionId" = None.
Proof.
  destruct (delete_object_drops_kwargs
              (answering (response 204)) accept accept
              proxy "bucket-a" "k" region {[ "VersionId" := VStr "v1" ]} world0
              (client (response 204) EmptyString (Return VNone)) world1
              ltac:(by vm_compute))
    as (kw & Hrun & _ & _ & Hother).
  exists kw. split; [exact Hrun|].
  apply Hother. rewrite !not_elem_of_cons. split_and!; [done | done | apply not_elem_of_nil].
Defined.

Lemma falsy_key_builds_no_client_witness :
  get_boto3_client (answering (response 200)) accept accept
    {| get_endpoint := "https://obs.example.com";
       get_ak_sk := Some (Return (VTuple [VStr "AK"; VNone])) |} region world0
  = (Raise TypeError, add_event (LogError "Cannot obtain AK/SK from config") world0).
Proof.
  apply (falsy_key_builds_no_client (answering (response 200)) accept accept
           {| get_endpoint := "https://obs.example.com";
              get_ak_sk := Some (Return (VTuple [VStr "AK"; VNone])) |} region world0
           "https://obs.example.com" (VStr "AK") VNone
           ltac:(by vm_compute) eq_refl (or_intror eq_refl)).
Defined.

Lemma failed_client_stops_every_method_witness :
  download_object (answering (response 200)) writable flushes accept accept
    proxy_empty_keys "/tmp/out" "bucket-a" region (Some "k") world_with_file
  = (Raise TypeError,
     add_event (LogError "Cannot obtain AK/SK from config") world_with_file).
Proof.
  pose proof (failed_client_stops_every_method
                translate translate (answering (response 200)) writable flushes
                accept accept
                Create proxy_empty_keys "bucket-a" "/tmp/out" "k" (Some "k")
                VNone VNone VNone VNone VNone region ∅ ∅ world_with_file
                TypeError
                (add_event (LogError "Cannot obtain AK/SK from config") world_with_file)
                ltac:(by vm_compute))
    as (_ & _ & _ & _ & _ & Hdownload & _).
  exact Hdownload.
Defined.

Lemma download_object_replaces_destination_witness :
  (download_object (transferring "new content") writable flushes accept accept
     proxy "/tmp/out" "bucket-a" region (Some "k") world_with_file).1
  = Return VNone
  ∧ files (download_object (transferring "new content") writable flushes accept accept
             proxy "/tmp/out" "bucket-a" region (Some "k") world_with_file).2
      !! "/tmp/out"
    = Some "new content".
Proof.
  pose proof (download_object_replaces_destination
                (transferring "new content") writable flushes accept accept
                proxy "/tmp/out" "bucket-a" region (Some "k") world_with_file
                (client VNone "new content" (Return VNone))
                (add_event (NewClient "https://obs.eu-de.otc.t-systems.com"
                              (VStr "AK") (VStr "SK")) world_with_file)
                "new content" VNone ltac:(by vm_compute) eq_refl eq_refl)
    as (Hflushed & _).
  exact (Hflushed eq_refl).
Defined.

Lemma download_object_unwritable_destination_witness :
  download_object (transferring "new content") refused flushes accept accept
    proxy "/tmp/out" "bucket-a" region (Some "k") world_with_file
  = (Raise OSError,
     add_event (NewClient "https://obs.eu-de.otc.t-systems.com" (VStr "AK") (VStr "SK"))
       world_with_file).
Proof.
  apply (download_object_unwritable_destination
           (transferring "new content") refused flushes accept accept
           proxy "/tmp/out" "bucket-a" region (Some "k") world_with_file
           (client VNone "new content" (Return VNone))).
  - by vm_compute.
  - reflexivity.
Defined.

Lemma containers_stops_at_failed_translation_witness :
  (containers translate_named
     (answering (VDict {[ "Buckets" := VList [bucket "a"; VDict ∅; bucket "b"] ]}))
     accept accept proxy region ∅ world0).1
  = ([VStr "a"], Raise KeyError).
Proof.
  erewrite (containers_stops_at_failed_translation
              translate_named
              (answering (VDict {[ "Buckets" := VList [bucket "a"; VDict ∅; bucket "b"] ]}))
              accept accept proxy region ∅ world0
              (client (VDict {[ "Buckets" := VList [bucket "a"; VDict ∅; bucket "b"] ]})
                      EmptyString (Return VNone))
              world1 _ [bucket "a"] [VStr "a"] (VDict ∅) KeyError [bucket "b"]).
  - reflexivity.
  - by vm_compute.
  - reflexivity.
  - reflexivity.
  - by repeat constructor.
  - reflexivity.
Defined.

Lemma every_call_builds_its_client_witness :
  trace ((objects (answering (response 200)) accept accept proxy "bucket-a" region ∅
            ≫= λ _, objects (answering (response 200)) accept accept
                      proxy "bucket-b" region ∅) world0).2
  = [NewClient "https://obs.eu-de.otc.t-systems.com" (VStr "AK") (VStr "SK");
     ClientCall "list_objects" {[ "Bucket" := VStr "bucket-a" ]};
     NewClient "https://obs.eu-de.otc.t-systems.com" (VStr "AK") (VStr "SK");
     ClientCall "list_objects" {[ "Bucket" := VStr "bucket-b" ]}].
Proof.
  apply (every_call_builds_its_client
           (answering (response 200)) accept accept
           proxy "bucket-a" "bucket-b" region world0
           "https://obs.eu-de.otc.t-systems.com" (VStr "AK") (VStr "SK")
           (client (response 200) EmptyString (Return VNone)) (response 200)
           ltac:(by vm_compute) eq_refl eq_refl eq_refl eq_refl eq_refl).
Defined.

Lemma container_method_makes_one_request_witness :
  (call_method translate (raising (LibraryError "ClientError")) accept accept
     Get proxy "bucket-a" VNone region ∅ world0).1
  = Raise (LibraryError "ClientError").
Proof.
  destruct (container_method_makes_one_request
              translate (raising (LibraryError "ClientError")) accept accept
              Get proxy "bucket-a" VNone region ∅ world0
              (raising_client (LibraryError "ClientError")) world1
              ltac:(by vm_compute) no_clash_empty)
    as (method & kw & _ & Hraise & _).
  by rewrite (Hraise (LibraryError "ClientError") eq_refl).
Defined.

Lemma malformed_response_is_attribute_error_witness :
  (call_method translate (answering (VDict {[ "ResponseMetadata" := VStr "ok" ]}))
     accept accept Get proxy "bucket-a" VNone region ∅ world0).1
  = Raise AttributeError.
Proof.
  apply (malformed_response_is_attribute_error
           translate (answering (VDict {[ "ResponseMetadata" := VStr "ok" ]}))
           accept accept Get proxy "bucket-a" VNone region ∅ world0
           (client (VDict {[ "ResponseMetadata" := VStr "ok" ]}) EmptyString (Return VNone))
           world1 (VDict {[ "ResponseMetadata" := VStr "ok" ]})).
  - by vm_compute.
  - intros method kw. reflexivity.
  - exact no_clash_empty.
  - right. exists {[ "ResponseMetadata" := VStr "ok" ]}, (VStr "ok").
    split_and!; [reflexivity | reflexivity | reflexivity | by intros d].
Defined.

Lemma get_container_endpoint_unknown_key_witness :
  get_container_endpoint accept accept
    (proxy_at "https://obs.%(region)s.example.com/v1") region
  = Raise KeyError.
Proof.
  apply (get_container_endpoint_unknown_key accept accept
           (proxy_at "https://obs.%(region)s.example.com/v1") region
           {| Url.scheme := "https"; Url.netloc := "obs.%(region)s.example.com";
              Url.path := "/v1"; Url.query := ""; Url.fragment := "" |}
           "obs." "region" "s.example.com"
           ltac:(by vm_compute) eq_refl eq_refl eq_refl eq_refl).
  by intros [=].
Defined.

Lemma get_container_endpoint_without_scheme_witness :
  get_container_endpoint accept accept (proxy_at "obs.example.com/v1") region
  = Return "://".
Proof.
  apply (get_container_endpoint_without_scheme accept accept
           "obs.example.com/v1" (keys "AK" "SK") region eq_refl eq_refl).
  by intros rest [=].
Defined.

Lemma create_container_location_is_region_witness :
  create_container translate (answering (response 200)) accept accept
    proxy "bucket-a" region {[ "CreateBucketConfiguration" := VDict ∅ ]} world0
  = (Raise TypeError, world1).
Proof.
  apply (proj2 (create_container_location_is_region
                  translate (answering (response 200)) accept accept
                  proxy "bucket-a" region {[ "CreateBucketConfiguration" := VDict ∅ ]} world0
                  (client (response 200) EmptyString (Return VNone)) world1
                  ltac:(by vm_compute) eq_refl)).
  by eexists.
Defined.

End Closed.
